(** * Verification of the PowerScale [info] module

    A shallow embedding of [plugins/modules/info.py]: the gather-subset
    dispatcher [Info.perform_module_operation], the per-category handlers
    defined in that file, the helper [get_sync_rule_limit_unit] and the
    argument specification [get_info_parameters].

    Python values are a small JSON-like type; remote SDK calls are answered
    by an explicit stub; every computation that touches the cluster carries
    the list of remote calls it issued. *)

From Stdlib Require Import List String Ascii ZArith Lia Bool DecimalString.
Import ListNotations.
Local Open Scope string_scope.
Set Warnings "-register-all".

(* ================================================================== *)
(** * Python values and exceptions *)
(* ================================================================== *)

Module Py.

(** The values that reach the module: [None], booleans, integers, text,
    lists and string-keyed dicts (what [to_dict()] of an SDK model gives). *)
Inductive Value : Type :=
| VNone
| VBool (b : bool)
| VInt (z : Z)
| VStr (s : string)
| VList (l : list Value)
| VDict (d : list (string * Value)).

Inductive Exn : Type :=
| KeyError (key : string)
| TypeError (msg : string)
| IndexError (msg : string)
| UnboundLocalError (var : string)
| ApiException (msg : string).

(** Result of a pure piece of Python: a value or a raised exception. *)
Inductive Result (A : Type) : Type :=
| Ok (a : A)
| Raise (e : Exn).
Arguments Ok {A} a.
Arguments Raise {A} e.

Definition rbind {A B} (r : Result A) (k : A -> Result B) : Result B :=
  match r with
  | Ok a => k a
  | Raise e => Raise e
  end.

Notation "'let*' x ':=' r 'in' k" := (rbind r (fun x => k))
  (at level 10, x name, r at level 100, k at level 200).

(** ** Text *)

Definition chars (s : string) : list ascii := list_ascii_of_string s.

(** [needle in hay] on [str]. *)
Fixpoint contains (needle hay : string) : bool :=
  String.prefix needle hay ||
  match hay with
  | EmptyString => false
  | String _ rest => contains needle rest
  end.

(** [sep.join(parts)] on a list of [str]. *)
Definition join (sep : string) (parts : list string) : string :=
  String.concat sep parts.

Definition str_of_Z (z : Z) : string := NilZero.string_of_int (Z.to_int z).

Definition quote1 : ascii := ascii_of_nat 39.
Definition quote2 : ascii := ascii_of_nat 34.
Definition backslash : ascii := ascii_of_nat 92.

Definition hex_digit (n : nat) : ascii :=
  if Nat.ltb n 10 then ascii_of_nat (48 + n) else ascii_of_nat (87 + n).

Fixpoint mem_char (c : ascii) (s : string) : bool :=
  match s with
  | EmptyString => false
  | String d rest => Ascii.eqb c d || mem_char c rest
  end.

(** One character of [repr(str)], inside the quote character [q]. Bytes
    from 128 on stand for printable non-ASCII text and are kept. *)
Definition repr_char (q c : ascii) : string :=
  let n := nat_of_ascii c in
  if Ascii.eqb c backslash then String backslash (String backslash EmptyString)
  else if Ascii.eqb c q then String backslash (String q EmptyString)
  else if Nat.eqb n 10 then String backslash "n"
  else if Nat.eqb n 13 then String backslash "r"
  else if Nat.eqb n 9 then String backslash "t"
  else if Nat.ltb n 32 || Nat.eqb n 127 then
    String backslash
      (String "x" (String (hex_digit (n / 16)) (String (hex_digit (n mod 16)) EmptyString)))
  else String c EmptyString.

Fixpoint repr_body (q : ascii) (s : string) : string :=
  match s with
  | EmptyString => EmptyString
  | String c rest => repr_char q c ++ repr_body q rest
  end.

(** [repr(s)] for a [str]: single quotes unless the text has a single quote
    and no double quote. *)
Definition repr_str (s : string) : string :=
  let q := if mem_char quote1 s && negb (mem_char quote2 s) then quote2 else quote1 in
  String q (repr_body q s ++ String q EmptyString).

Fixpoint py_repr (v : Value) : string :=
  match v with
  | VNone => "None"
  | VBool true => "True"
  | VBool false => "False"
  | VInt z => str_of_Z z
  | VStr s => repr_str s
  | VList l => "[" ++ join ", " (map py_repr l) ++ "]"
  | VDict d =>
      "{" ++ join ", " (map (fun kv => let '(k, x) := kv in
                                         repr_str k ++ ": " ++ py_repr x) d) ++ "}"
  end.

(** [str(v)]. *)
Definition py_str (v : Value) : string :=
  match v with
  | VStr s => s
  | _ => py_repr v
  end.

(** ** Truth, comparison, subscripting, iteration *)

Definition truthy (v : Value) : bool :=
  match v with
  | VNone => false
  | VBool b => b
  | VInt z => negb (Z.eqb z 0)
  | VStr s => negb (String.eqb s "")
  | VList l => match l with [] => false | _ => true end
  | VDict d => match d with [] => false | _ => true end
  end.

(** [v == 'literal']. *)
Definition eq_str (v : Value) (lit : string) : bool :=
  match v with
  | VStr s => String.eqb s lit
  | _ => false
  end.

Fixpoint lookup (k : string) (d : list (string * Value)) : option Value :=
  match d with
  | [] => None
  | (k', x) :: rest => if String.eqb k k' then Some x else lookup k rest
  end.

(** [v['key']] with a text key. *)
Definition getitem (v : Value) (k : string) : Result Value :=
  match v with
  | VDict d => match lookup k d with
               | Some x => Ok x
               | None => Raise (KeyError k)
               end
  | VList _ => Raise (TypeError "list indices must be integers or slices, not str")
  | VStr _ => Raise (TypeError "string indices must be integers")
  | _ => Raise (TypeError "object is not subscriptable")
  end.

(** [v[i]] with an integer index. *)
Definition getindex (v : Value) (i : Z) : Result Value :=
  match v with
  | VList l =>
      let n := Z.of_nat (List.length l) in
      let j := if Z.ltb i 0 then (i + n)%Z else i in
      if Z.ltb j 0 || Z.leb n j then Raise (IndexError "list index out of range")
      else match nth_error l (Z.to_nat j) with
           | Some x => Ok x
           | None => Raise (IndexError "list index out of range")
           end
  | VStr s =>
      let n := Z.of_nat (String.length s) in
      let j := if Z.ltb i 0 then (i + n)%Z else i in
      if Z.ltb j 0 || Z.leb n j then Raise (IndexError "string index out of range")
      else match String.get (Z.to_nat j) s with
           | Some c => Ok (VStr (String c EmptyString))
           | None => Raise (IndexError "string index out of range")
           end
  | VDict _ => Raise (KeyError (str_of_Z i))
  | _ => Raise (TypeError "object is not subscriptable")
  end.

Fixpoint dict_set (k : string) (x : Value) (d : list (string * Value))
  : list (string * Value) :=
  match d with
  | [] => [(k, x)]
  | (k', y) :: rest =>
      if String.eqb k k' then (k', x) :: rest else (k', y) :: dict_set k x rest
  end.

(** [v['key'] = x]; the updated object is returned. *)
Definition setitem (v : Value) (k : string) (x : Value) : Result Value :=
  match v with
  | VDict d => Ok (VDict (dict_set k x d))
  | VList _ => Raise (TypeError "list indices must be integers or slices, not str")
  | _ => Raise (TypeError "object does not support item assignment")
  end.

(** The elements a [for] loop visits. *)
Definition iterate (v : Value) : Result (list Value) :=
  match v with
  | VList l => Ok l
  | VDict d => Ok (map (fun kv => VStr (fst kv)) d)
  | VStr s => Ok (map (fun c => VStr (String c EmptyString)) (chars s))
  | _ => Raise (TypeError "object is not iterable")
  end.

(** [range(n)]. *)
Definition py_range (n : Value) : Result (list Z) :=
  match n with
  | VInt z => Ok (map Z.of_nat (seq 0 (Z.to_nat z)))
  | VBool b => Ok (if b then [0%Z] else [])
  | _ => Raise (TypeError "object cannot be interpreted as an integer")
  end.

(** A [for] loop that threads an accumulator and stops at the first
    exception. *)
Fixpoint for_each {A S} (xs : list A) (body : A -> S -> Result S) (s : S) : Result S :=
  match xs with
  | [] => Ok s
  | x :: rest => let* s' := body x s in for_each rest body s'
  end.

(** [enumerate(xs)]. *)
Definition enumerate {A} (xs : list A) : list (Z * A) :=
  combine (map Z.of_nat (seq 0 (List.length xs))) xs.

(** [sep.join(v)]: every element must be text. *)
Definition join_value (sep : string) (v : Value) : Result Value :=
  let* xs := iterate v in
  let* parts := for_each xs (fun x acc =>
                  match x with
                  | VStr s => Ok (acc ++ [s])%list
                  | _ => Raise (TypeError "sequence item: expected str instance")
                  end) [] in
  Ok (VStr (join sep parts)).

End Py.
Export Py.

(* ================================================================== *)
(** * Effects: remote calls, exceptions and module exit *)
(* ================================================================== *)

Module Effects.

(** The SDK methods [info.py] calls directly, one constructor per
    [<api>.<method>]. *)
Inductive ApiMethod : Type :=
| cluster_api_get_cluster_config
| cluster_api_get_cluster_external_ips
| cluster_api_get_cluster_identity
| cluster_api_get_cluster_owner
| cluster_api_get_cluster_version
| zone_api_list_zones
| cluster_api_get_cluster_nodes
| auth_api_get_providers_summary
| auth_api_list_auth_users
| auth_api_list_auth_groups
| protocol_api_list_smb_shares
| statistics_api_get_summary_client
| protocol_api_list_nfs_exports
| protocol_api_list_nfs_aliases
| synciq_api_get_sync_reports
| synciq_api_list_sync_policies
| synciq_api_get_target_reports
| synciq_api_list_certificates_peer
| synciq_api_list_sync_rules
| network_api_list_network_groupnets
| network_api_get_network_pools
| network_api_get_network_rules
| network_api_get_network_interfaces
| network_api_get_network_subnets
| protocol_api_get_nfs_settings_zone
| storagepool_api_list_storagepool_nodepools
| storagepool_api_list_storagepool_tiers
| protocol_api_get_smb_openfiles
| auth_api_list_providers_ldap
| auth_api_get_mapping_users_rules
| protocol_api_get_nfs_settings_global.

(** The fetch operations of the collection's shared library (classes
    [Protocol], [SyncIQ], [Cluster], [Certificate], [Auth] and
    [SupportAssist]); their bodies are outside [info.py]. *)
Inductive SharedOp : Type :=
| Protocol_get_nfs_default_settings
| SyncIQ_get_synciq_global_settings
| Protocol_get_s3_bucket_list
| Protocol_get_smb_global_settings
| Protocol_get_ntp_server_list
| Cluster_get_email_settings
| Cluster_get_cluster_identity_details
| Cluster_get_cluster_owner_details
| Protocol_get_snmp_settings
| Certificate_get_server_certificate_with_default
| Auth_get_auth_roles
| SupportAssist_get_support_assist_settings.

Definition Kwargs : Type := list (string * Value).

(** What leaves the process towards the cluster. *)
Inductive Event : Type :=
| Remote (m : ApiMethod) (kw : Kwargs)
| Shared (op : SharedOp) (args : list Value).

(** How the module ends: [fail_json] with a message or [exit_json] with the result dict. *)
Inductive ExitInfo : Type :=
| FailJson (msg : string)
| ExitJson (result : list (string * Value)).

(** A step either returns, raises a Python exception, or ends the process
    ([SystemExit], which [except Exception] does not catch). *)
Inductive Outcome (A : Type) : Type :=
| Return (a : A)
| Raised (e : Exn)
| Exited (x : ExitInfo).
Arguments Return {A} a.
Arguments Raised {A} e.
Arguments Exited {A} x.

(** A computation: the remote calls it issued, in order, and how it ended. *)
Definition M (A : Type) : Type := (list Event * Outcome A)%type.

Definition trace {A} (m : M A) : list Event := fst m.
Definition outcome {A} (m : M A) : Outcome A := snd m.

Definition ret {A} (a : A) : M A := ([], Return a).

Definition bind {A B} (m : M A) (k : A -> M B) : M B :=
  match m with
  | (t, Return a) => let '(t', o) := k a in ((t ++ t')%list, o)
  | (t, Raised e) => (t, Raised e)
  | (t, Exited x) => (t, Exited x)
  end.

Notation "x <- m ;; k" := (bind m (fun x => k))
  (at level 61, m at next level, right associativity).

Definition lift {A} (r : Result A) : M A :=
  match r with
  | Ok a => ret a
  | Raise e => ([], Raised e)
  end.

Definition fail_json {A} (msg : string) : M A := ([], Exited (FailJson msg)).

Definition exit_json {A} (result : list (string * Value)) : M A :=
  ([], Exited (ExitJson result)).

(** [try: body / except Exception as e: handler e]. *)
Definition try_except {A} (body : M A) (handler : Exn -> M A) : M A :=
  match body with
  | (t, Raised e) => let '(t', o) := handler e in ((t ++ t')%list, o)
  | other => other
  end.

(** The collaborators of the module: the cluster behind the SDK (an SDK call
    followed by [to_dict()] either yields a value or raises), the shared
    library's fetch operations, [utils.determine_error] and
    [utils.validate_module_pre_reqs]. *)
Record Client : Type := {
  respond : ApiMethod -> Kwargs -> Result Value;
  shared_library : SharedOp -> list Value -> Outcome Value;
  determine_error : Exn -> string;
  prereqs_error : option string
}.

Definition remote (cl : Client) (m : ApiMethod) (kw : Kwargs) : M Value :=
  match respond cl m kw with
  | Ok v => ([Remote m kw], Return v)
  | Raise e => ([Remote m kw], Raised e)
  end.

Definition shared (cl : Client) (op : SharedOp) (args : list Value) : M Value :=
  ([Shared op args], shared_library cl op args).

End Effects.
Export Effects.

(* ================================================================== *)
(** * The module: parameters and category handlers *)
(* ================================================================== *)

(** [module.params] after argument validation. [include_all_access_zones]
    has no default and is [None] when the task does not give it. *)
Record Params : Type := {
  onefs_host : string;
  include_all_access_zones : option bool;
  access_zone : string;
  scope : string;
  gather_subset : list string
}.

(** [self]: the validated parameters and the SDK clients. *)
Record Info : Type := {
  module_params : Params;
  api : Client
}.

Definition host (self : Info) : string := onefs_host (module_params self).
Definition err (self : Info) (e : Exn) : string := determine_error (api self) e.
Definition call (self : Info) := remote (api self).

(** ** Helpers for the recurring loop shapes *)

(** The dict display [{out1: item[in1], out2: item[in2], ...}], evaluated
    left to right. *)
Fixpoint project (fields : list (string * string)) (item : Value)
  : Result (list (string * Value)) :=
  match fields with
  | [] => Ok []
  | (out, key) :: rest =>
      let* x := getitem item key in
      let* more := project rest item in
      Ok ((out, x) :: more)
  end.

(** [for item in items: acc.append(body(item))]. *)
Definition collect (items : Value) (body : Value -> Result Value) : Result (list Value) :=
  let* xs := iterate items in
  for_each xs (fun item acc => let* y := body item in Ok (acc ++ [y])%list) [].

(** [if items: for item in items: acc.append({...})], starting from []. *)
Definition collect_if_any (items : Value) (fields : list (string * string))
  : Result Value :=
  if truthy items
  then let* acc := collect items (fun item => let* d := project fields item in Ok (VDict d)) in
       Ok (VList acc)
  else Ok (VList []).

(** ** [get_sync_rule_limit_unit] (module level) *)

Definition get_sync_rule_limit_unit (limit type : Value) : Result Value :=
  let unit :=
    if eq_str type "bandwidth" then Some "kb/s"
    else if eq_str type "cpu" then Some "%"
    else if eq_str type "file_count" then Some "files/sec"
    else if eq_str type "worker" then Some "%"
    else None in
  let limit_str := py_str limit in
  match unit with
  | Some u => Ok (VStr (limit_str ++ u))
  | None => Raise (UnboundLocalError "unit")
  end.

(** ** Handlers, in the order of the file *)

Definition get_attributes_list (self : Info) : M Value :=
  try_except
    (config <- call self cluster_api_get_cluster_config [] ;;
     ips <- call self cluster_api_get_cluster_external_ips [] ;;
     external_ip_str <- lift (join_value "," ips) ;;
     let external_ips := VDict [("External IPs", external_ip_str)] in
     logon_msg <- call self cluster_api_get_cluster_identity [] ;;
     contact_info <- call self cluster_api_get_cluster_owner [] ;;
     cluster_version <- call self cluster_api_get_cluster_version [] ;;
     ret (VDict [("Config", config); ("Contact_Info", contact_info);
                 ("External_IP", external_ips); ("Logon_msg", logon_msg);
                 ("Cluster_Version", cluster_version)]))
    (fun e => fail_json ("Get Attributes List for PowerScale cluster: " ++ host self
                         ++ " failed with error: " ++ err self e)).

Definition get_access_zones_list (self : Info) : M Value :=
  try_except
    (access_zones_list <- call self zone_api_list_zones [] ;;
     ret access_zones_list)
    (fun e => fail_json ("Get Access zone List for PowerScale cluster: " ++ host self
                         ++ " failedwith error: " ++ err self e)).

Definition get_nodes_list (self : Info) : M Value :=
  try_except
    (nodes_list <- call self cluster_api_get_cluster_nodes [] ;;
     ret nodes_list)
    (fun e => fail_json ("Get Nodes List for PowerScale cluster: " ++ host self
                         ++ " failed witherror: " ++ err self e)).

Definition get_providers_list (self : Info) (access_zone : Value) : M Value :=
  try_except
    (providers_list <- call self auth_api_get_providers_summary [("zone", access_zone)] ;;
     ret providers_list)
    (fun e => fail_json ("Get authentication Providers List for PowerScale cluster: "
                         ++ host self ++ " failed with error: " ++ err self e)).

Definition get_users_list (self : Info) (access_zone : Value) : M Value :=
  try_except
    (users_list <- call self auth_api_list_auth_users [("zone", access_zone)] ;;
     ret users_list)
    (fun e => fail_json ("Get Users List for PowerScale cluster: " ++ host self
                         ++ " and access zone: " ++ py_str access_zone
                         ++ " failed with error: " ++ err self e)).

Definition get_groups_list (self : Info) (access_zone : Value) : M Value :=
  try_except
    (group_list <- call self auth_api_list_auth_groups [("zone", access_zone)] ;;
     ret group_list)
    (fun e => fail_json ("Get Group List for PowerScale cluster: " ++ host self
                         ++ " andaccess zone: " ++ py_str access_zone
                         ++ " failed with error: " ++ err self e)).

Definition get_smb_shares_list (self : Info) (access_zone : Value) : M Value :=
  try_except
    (smb_shares_details <- call self protocol_api_list_smb_shares [("zone", access_zone)] ;;
     lift (let* smb_shares := getitem smb_shares_details "shares" in
           collect_if_any smb_shares [("id", "id"); ("name", "name")]))
    (fun e => fail_json ("Get smb_shares list for PowerScale cluster: " ++ host self
                         ++ " failed witherror: " ++ err self e)).

Definition get_clients_list (self : Info) : M Value :=
  try_except
    (clients_details <- call self statistics_api_get_summary_client [] ;;
     lift (let* clients := getitem clients_details "client" in
           collect_if_any clients
             [("local_address", "local_addr"); ("local_name", "local_name");
              ("remote_address", "remote_addr"); ("remote_name", "remote_name");
              ("node", "node"); ("protocol", "protocol")]))
    (fun e => fail_json ("Get active clients list for PowerScale cluster: " ++ host self
                         ++ " failed witherror: " ++ err self e)).

Definition get_nfs_exports_list (self : Info) (access_zone : Value) : M Value :=
  try_except
    (nfs_exports_details <- call self protocol_api_list_nfs_exports [("zone", access_zone)] ;;
     lift (let* nfs_exports := getitem nfs_exports_details "exports" in
           collect_if_any nfs_exports [("id", "id"); ("paths", "paths")]))
    (fun e => fail_json ("Get nfs_exports list for PowerScale cluster: " ++ host self
                         ++ " failed witherror: " ++ err self e)).

Definition get_nfs_aliases_list (self : Info) (access_zone : Value) : M Value :=
  try_except
    (nfs_aliases_details <-
       call self protocol_api_list_nfs_aliases [("zone", access_zone); ("check", VBool true)] ;;
     lift (getitem nfs_aliases_details "aliases"))
    (fun e => fail_json ("Getting list of NFS aliases for PowerScale: " ++ host self
                         ++ " failed with error: " ++ err self e)).

(** The loop of [get_synciq_reports] and [get_synciq_target_reports]:
    [for i in range(details['total'])], reading [details['reports'][i]]
    twice. *)
Definition reports_loop (details : Value) : Result Value :=
  let* total := getitem details "total" in
  let* indices := py_range total in
  let* acc := for_each indices (fun i acc =>
                let* reports := getitem details "reports" in
                let* report := getindex reports i in
                let* id := getitem report "id" in
                let* reports' := getitem details "reports" in
                let* report' := getindex reports' i in
                let* name := getitem report' "policy_name" in
                Ok (acc ++ [VDict [("id", id); ("name", name)]])%list) [] in
  Ok (VList acc).

Definition get_synciq_reports (self : Info) : M Value :=
  try_except
    (synciq_reports_details <- call self synciq_api_get_sync_reports [] ;;
     lift (reports_loop synciq_reports_details))
    (fun e => fail_json ("Get SyncIQ Report list for PowerScale cluster: " ++ host self
                         ++ " failed witherror: " ++ err self e)).

Definition get_syniq_policies_list (self : Info) : M Value :=
  try_except
    (policies_details <- call self synciq_api_list_sync_policies [] ;;
     lift (let* policies := getitem policies_details "policies" in
           collect_if_any policies
             [("name", "name"); ("id", "id"); ("source_root_path", "source_root_path");
              ("target_path", "target_path"); ("action", "action");
              ("schedule", "schedule"); ("enabled", "enabled")]))
    (fun e => fail_json ("Get list of SyncIQ Policies for PowerScale: " ++ host self
                         ++ " failed witherror: " ++ err self e)).

Definition get_synciq_target_reports (self : Info) : M Value :=
  try_except
    (synciq_target_reports_details <- call self synciq_api_get_target_reports [] ;;
     lift (reports_loop synciq_target_reports_details))
    (fun e => fail_json ("Get SyncIQ Target Report list for PowerScale cluster: "
                         ++ host self ++ " failed witherror: " ++ err self e)).

Definition get_synciq_target_cluster_certificates_list (self : Info) : M Value :=
  try_except
    (cert_details <- call self synciq_api_list_certificates_peer [] ;;
     lift (let* certs := getitem cert_details "certificates" in
           collect_if_any certs [("name", "name"); ("id", "id")]))
    (fun e => fail_json ("Get list of SyncIQ target cluster certificates for PowerScale: "
                         ++ host self ++ " failed witherror: " ++ err self e)).

(** The dict built for one performance rule. *)
Definition performance_rule_dict (rule : Value) : Result Value :=
  let* id := getitem rule "id" in
  let* schedule := getitem rule "schedule" in
  let* enabled := getitem rule "enabled" in
  let* type := getitem rule "type" in
  let* limit_arg := getitem rule "limit" in
  let* type_arg := getitem rule "type" in
  let* limit := get_sync_rule_limit_unit limit_arg type_arg in
  Ok (VDict [("id", id); ("schedule", schedule); ("enabled", enabled);
             ("type", type); ("limit", limit)]).

Definition get_synciq_performance_rules (self : Info) : M Value :=
  try_except
    (synciq_performance_rule_details <- call self synciq_api_list_sync_rules [] ;;
     lift (let* rules := getitem synciq_performance_rule_details "rules" in
           let* acc := collect rules performance_rule_dict in
           Ok (VList acc)))
    (fun e => fail_json ("Get SyncIQ performance rules list for PowerScale cluster: "
                         ++ host self ++ " failed witherror: " ++ err self e)).

Definition get_network_groupnets (self : Info) : M Value :=
  try_except
    (network_groupnet_details <- call self network_api_list_network_groupnets [] ;;
     lift (let* groupnets := getitem network_groupnet_details "groupnets" in
           collect_if_any groupnets [("id", "id"); ("name", "name")]))
    (fun e => fail_json ("Getting list of network groupnets for PowerScale: " ++ host self
                         ++ " failed with error: " ++ err self e)).

Definition get_network_pools (self : Info) (access_zone include_all_access_zones : Value)
  : M Value :=
  try_except
    (network_pool_details <-
       (if truthy include_all_access_zones
        then call self network_api_get_network_pools []
        else call self network_api_get_network_pools [("access_zone", access_zone)]) ;;
     lift (let* pools := getitem network_pool_details "pools" in
           collect_if_any pools [("id", "id"); ("name", "name")]))
    (fun e => fail_json ("Getting list of network pools for PowerScale: " ++ host self
                         ++ " failed with error: " ++ err self e)).

Definition get_network_rules (self : Info) : M Value :=
  try_except
    (network_rule_details <- call self network_api_get_network_rules [] ;;
     lift (let* rules := getitem network_rule_details "rules" in
           collect_if_any rules [("id", "id"); ("name", "name")]))
    (fun e => fail_json ("Getting list of network rules for PowerScale: " ++ host self
                         ++ " failed with error: " ++ err self e)).

Definition get_network_interfaces (self : Info) : M Value :=
  try_except
    (network_interfaces_details <- call self network_api_get_network_interfaces [] ;;
     lift (getitem network_interfaces_details "interfaces"))
    (fun e => fail_json ("Getting list of network interfaces for PowerScale: " ++ host self
                         ++ " failed with error: " ++ err self e)).

Definition get_network_subnets (self : Info) : M Value :=
  try_except
    (network_subnets_details <- call self network_api_get_network_subnets [] ;;
     lift (let* subnets := getitem network_subnets_details "subnets" in
           collect_if_any subnets [("id", "id"); ("name", "name")]))
    (fun e => fail_json ("Getting list of network subnets for PowerScale: " ++ host self
                         ++ " failed with error: " ++ err self e)).

Definition get_zone_settings (self : Info) (access_zone : Value) : M Value :=
  try_except
    (zone_settings <- call self protocol_api_get_nfs_settings_zone [("zone", access_zone)] ;;
     lift (let* nfs_zone_settings := getitem zone_settings "settings" in
           setitem nfs_zone_settings "zone" access_zone))
    (fun e => fail_json ("Getting zone settings for PowerScale: " ++ host self
                         ++ " failed with error: " ++ err self e)).

Definition get_node_pools (self : Info) : M Value :=
  try_except
    (node_pool_details <- call self storagepool_api_list_storagepool_nodepools [] ;;
     lift (getitem node_pool_details "nodepools"))
    (fun e => fail_json ("Getting list of node pools for PowerScale: " ++ host self
                         ++ " failed with error: " ++ err self e)).

Definition get_storagepool_tiers (self : Info) : M Value :=
  try_except
    (storagepool_tiers_details <- call self storagepool_api_list_storagepool_tiers [] ;;
     lift (getitem storagepool_tiers_details "tiers"))
    (fun e => fail_json ("Getting list of storagepool tiers for PowerScale: " ++ host self
                         ++ " failed with error: " ++ err self e)).

Definition get_smb_files (self : Info) : M Value :=
  try_except
    (smb_files_details <- call self protocol_api_get_smb_openfiles [] ;;
     lift (getitem smb_files_details "openfiles"))
    (fun e => fail_json ("Getting list of smb open files for PowerScale: " ++ host self
                         ++ " failed with error: " ++ err self e)).

Definition get_ldap_providers (self : Info) (scope : Value) : M Value :=
  try_except
    (ldap_providers_details <- call self auth_api_list_providers_ldap [("scope", scope)] ;;
     lift (getitem ldap_providers_details "ldap"))
    (fun e => fail_json ("Getting list of ldap providers for PowerScale: " ++ host self
                         ++ " failed with error: " ++ err self e)).

(** The loop of [get_user_mapping_rules]: every rule gets
    [apply_order = count + 1] and is appended. *)
Definition apply_order_loop (rules : list Value) : Result (list Value) :=
  for_each (enumerate rules) (fun '(count, rule) acc =>
    let* rule' := setitem rule "apply_order" (VInt (count + 1)) in
    Ok (acc ++ [rule'])%list) [].

Definition get_user_mapping_rules (self : Info) (access_zone : Value) : M Value :=
  try_except
    (user_mapping_rules_details <-
       call self auth_api_get_mapping_users_rules [("zone", access_zone)] ;;
     lift (let* outer := getitem user_mapping_rules_details "rules" in
           let* inner := getitem outer "rules" in
           let* rules := iterate inner in
           let* acc := apply_order_loop rules in
           Ok (VList acc)))
    (fun e => fail_json ("Getting list of user mapping rules for PowerScale: " ++ host self
                         ++ " failed with error: " ++ err self e)).

Definition get_nfs_global_settings (self : Info) : M Value :=
  try_except
    (nfs_global_settings_details <- call self protocol_api_get_nfs_settings_global [] ;;
     lift (getitem nfs_global_settings_details "settings"))
    (fun e => fail_json ("Getting NFS global settings for PowerScale: " ++ host self
                         ++ " failed with error: " ++ err self e)).

(* ================================================================== *)
(** * [Info.perform_module_operation] *)
(* ================================================================== *)

Definition none_or_bool (b : option bool) : Value :=
  match b with
  | Some x => VBool x
  | None => VNone
  end.

(** The [gather_subset] list as the Python object the tests read. *)
Definition subset_value (p : Params) : Value := VList (map VStr (gather_subset p)).

(** The text every [if '<name>' in str(subset)] looks into. *)
Definition subset_text (p : Params) : string := py_str (subset_value p).

Definition call_shared (self : Info) := shared (api self).

(** The body of the method, statement by statement: the guard on an empty
    subset, the thirty-nine [if '<name>' in str(subset)] tests in their
    order (each local starts from its empty default), the result dict, the
    [update] that appends [SynciqTargetClusterCertificate], [exit_json]. *)
Definition perform_module_operation (self : Info) : M unit :=
  let include_all_access_zones :=
    none_or_bool (include_all_access_zones (module_params self)) in
  let access_zone := VStr (access_zone (module_params self)) in
  let subset := subset_value (module_params self) in
  let scope := VStr (scope (module_params self)) in
  let requested (name : string) := contains name (py_str subset) in
  _ <- (if negb (truthy subset)
        then fail_json "Please specify gather_subset" else ret tt) ;;
  attributes <- (if requested "attributes"
                 then get_attributes_list self else ret (VList [])) ;;
  access_zones <- (if requested "access_zones"
                   then get_access_zones_list self else ret (VList [])) ;;
  nodes <- (if requested "nodes"
            then get_nodes_list self else ret (VList [])) ;;
  providers <- (if requested "providers"
                then get_providers_list self access_zone else ret (VList [])) ;;
  users <- (if requested "users"
            then get_users_list self access_zone else ret (VList [])) ;;
  groups <- (if requested "groups"
             then get_groups_list self access_zone else ret (VList [])) ;;
  smb_shares <- (if requested "smb_shares"
                 then get_smb_shares_list self access_zone else ret (VList [])) ;;
  clients <- (if requested "clients"
              then get_clients_list self else ret (VList [])) ;;
  nfs_exports <- (if requested "nfs_exports"
                  then get_nfs_exports_list self access_zone else ret (VList [])) ;;
  nfs_aliases <- (if requested "nfs_aliases"
                  then get_nfs_aliases_list self access_zone else ret (VList [])) ;;
  synciq_reports <- (if requested "synciq_reports"
                     then get_synciq_reports self else ret (VList [])) ;;
  synciq_target_reports <- (if requested "synciq_target_reports"
                            then get_synciq_target_reports self else ret (VList [])) ;;
  synciq_policies <- (if requested "synciq_policies"
                      then get_syniq_policies_list self else ret (VList [])) ;;
  synciq_target_cluster_certificates <-
    (if requested "synciq_target_cluster_certificates"
     then get_synciq_target_cluster_certificates_list self else ret (VList [])) ;;
  synciq_performance_rules <- (if requested "synciq_performance_rules"
                               then get_synciq_performance_rules self else ret (VList [])) ;;
  network_groupnets <- (if requested "network_groupnets"
                        then get_network_groupnets self else ret (VList [])) ;;
  network_pools <- (if requested "network_pools"
                    then get_network_pools self access_zone include_all_access_zones
                    else ret (VList [])) ;;
  network_rules <- (if requested "network_rules"
                    then get_network_rules self else ret (VList [])) ;;
  network_interfaces <- (if requested "network_interfaces"
                         then get_network_interfaces self else ret (VList [])) ;;
  network_subnets <- (if requested "network_subnets"
                      then get_network_subnets self else ret (VList [])) ;;
  node_pools <- (if requested "node_pools"
                 then get_node_pools self else ret (VList [])) ;;
  storagepool_tiers <- (if requested "storagepool_tiers"
                        then get_storagepool_tiers self else ret (VList [])) ;;
  smb_files <- (if requested "smb_files"
                then get_smb_files self else ret (VList [])) ;;
  user_mapping_rules <- (if requested "user_mapping_rules"
                         then get_user_mapping_rules self access_zone else ret (VList [])) ;;
  ldap <- (if requested "ldap"
           then get_ldap_providers self scope else ret (VList [])) ;;
  nfs_zone_settings <- (if requested "nfs_zone_settings"
                        then get_zone_settings self access_zone else ret (VDict [])) ;;
  nfs_default_settings <-
    (if requested "nfs_default_settings"
     then call_shared self Protocol_get_nfs_default_settings [access_zone]
     else ret (VDict [])) ;;
  nfs_global_settings <- (if requested "nfs_global_settings"
                          then get_nfs_global_settings self else ret (VDict [])) ;;
  synciq_global_settings <-
    (if requested "synciq_global_settings"
     then call_shared self SyncIQ_get_synciq_global_settings [] else ret (VDict [])) ;;
  s3_buckets <- (if requested "s3_buckets"
                 then call_shared self Protocol_get_s3_bucket_list [] else ret (VDict [])) ;;
  smb_global_settings <-
    (if requested "smb_global_settings"
     then call_shared self Protocol_get_smb_global_settings [] else ret (VDict [])) ;;
  ntp_servers <- (if requested "ntp_servers"
                  then call_shared self Protocol_get_ntp_server_list [] else ret (VDict [])) ;;
  email_settings <- (if requested "email_settings"
                     then call_shared self Cluster_get_email_settings [] else ret (VDict [])) ;;
  cluster_identity <-
    (if requested "cluster_identity"
     then call_shared self Cluster_get_cluster_identity_details [] else ret (VDict [])) ;;
  cluster_owner <-
    (if requested "cluster_owner"
     then call_shared self Cluster_get_cluster_owner_details [] else ret (VDict [])) ;;
  snmp_settings <- (if requested "snmp_settings"
                    then call_shared self Protocol_get_snmp_settings [] else ret (VDict [])) ;;
  server_certificate <-
    (if requested "server_certificate"
     then call_shared self Certificate_get_server_certificate_with_default []
     else ret (VList [])) ;;
  roles <- (if requested "roles"
            then call_shared self Auth_get_auth_roles [access_zone] else ret (VDict [])) ;;
  support_assist_settings <-
    (if requested "support_assist_settings"
     then call_shared self SupportAssist_get_support_assist_settings []
     else ret (VDict [])) ;;
  exit_json
    [("Attributes", attributes);
     ("AccessZones", access_zones);
     ("Nodes", nodes);
     ("Providers", providers);
     ("Users", users);
     ("Groups", groups);
     ("SmbShares", smb_shares);
     ("Clients", clients);
     ("NfsExports", nfs_exports);
     ("NfsAliases", nfs_aliases);
     ("SynciqReports", synciq_reports);
     ("SynciqTargetReports", synciq_target_reports);
     ("SynciqPolicies", synciq_policies);
     ("SynciqPerformanceRules", synciq_performance_rules);
     ("NetworkGroupnets", network_groupnets);
     ("NetworkPools", network_pools);
     ("NetworkRules", network_rules);
     ("NetworkInterfaces", network_interfaces);
     ("NetworkSubnets", network_subnets);
     ("NodePools", node_pools);
     ("StoragePoolTiers", storagepool_tiers);
     ("SmbOpenFiles", smb_files);
     ("UserMappingRules", user_mapping_rules);
     ("LdapProviders", ldap);
     ("NfsZoneSettings", nfs_zone_settings);
     ("NfsDefaultSettings", nfs_default_settings);
     ("NfsGlobalSettings", nfs_global_settings);
     ("SynciqGlobalSettings", synciq_global_settings);
     ("s3Buckets", s3_buckets);
     ("SmbGlobalSettings", smb_global_settings);
     ("NTPServers", ntp_servers);
     ("EmailSettings", email_settings);
     ("ClusterIdentity", cluster_identity);
     ("ClusterOwner", cluster_owner);
     ("SnmpSettings", snmp_settings);
     ("ServerCertificate", server_certificate);
     ("roles", roles);
     ("support_assist_settings", support_assist_settings);
     ("SynciqTargetClusterCertificate", synciq_target_cluster_certificates)].

(* ================================================================== *)
(** * [get_info_parameters], [Info.__init__] and [main] *)
(* ================================================================== *)

(** The [choices] of [gather_subset], in the order of the file. *)
Definition gather_subset_choices : list string :=
  ["attributes"; "access_zones"; "nodes"; "providers"; "users"; "groups";
   "smb_shares"; "nfs_exports"; "nfs_aliases"; "clients"; "synciq_reports";
   "synciq_target_reports"; "synciq_policies";
   "synciq_target_cluster_certificates"; "synciq_performance_rules";
   "network_groupnets"; "network_pools"; "network_rules"; "network_interfaces";
   "network_subnets"; "node_pools"; "storagepool_tiers"; "smb_files";
   "user_mapping_rules"; "ldap"; "nfs_zone_settings"; "nfs_default_settings";
   "nfs_global_settings"; "synciq_global_settings"; "s3_buckets";
   "smb_global_settings"; "ntp_servers"; "email_settings"; "cluster_identity";
   "cluster_owner"; "snmp_settings"; "server_certificate"; "roles";
   "support_assist_settings"].

Definition scope_choices : list string := ["effective"; "user"; "default"].
Definition access_zone_default : string := "System".
Definition scope_default : string := "effective".

Definition mutually_exclusive_args : list (list string) :=
  [["access_zone"; "include_all_access_zones"]].

(** What the task gives the module; [None] is an option left out. *)
Record TaskArgs : Type := {
  arg_onefs_host : string;
  arg_include_all_access_zones : option bool;
  arg_access_zone : option string;
  arg_scope : option string;
  arg_gather_subset : option (list string)
}.

Definition is_some {A} (o : option A) : bool :=
  match o with Some _ => true | None => false end.

Definition supplied (args : TaskArgs) (name : string) : bool :=
  if String.eqb name "include_all_access_zones" then is_some (arg_include_all_access_zones args)
  else if String.eqb name "access_zone" then is_some (arg_access_zone args)
  else if String.eqb name "scope" then is_some (arg_scope args)
  else if String.eqb name "gather_subset" then is_some (arg_gather_subset args)
  else String.eqb name "onefs_host".

Definition mem_string (s : string) (l : list string) : bool :=
  existsb (String.eqb s) l.

(** Modelled from the spec: argument validation belongs to [AnsibleModule],
    which is outside [info.py]. A group of [mutually_exclusive] names of
    which the task supplies more than one is rejected first; then a missing
    required option, a value outside [choices]; defaults fill the rest. *)
Fixpoint check_mutually_exclusive (groups : list (list string)) (args : TaskArgs)
  : option string :=
  match groups with
  | [] => None
  | g :: rest =>
      if Nat.ltb 1 (List.length (filter (supplied args) g))
      then Some ("parameters are mutually exclusive: " ++ join "|" g)
      else check_mutually_exclusive rest args
  end.

(** Modelled from the spec: [AnsibleModule(argument_spec, mutually_exclusive)]
    on the task's arguments, ending in [module.params] or in [fail_json]. *)
Definition AnsibleModule (mutually_exclusive : list (list string)) (args : TaskArgs)
  : M Params :=
  match check_mutually_exclusive mutually_exclusive args with
  | Some msg => fail_json msg
  | None =>
      match arg_gather_subset args with
      | None => fail_json "missing required arguments: gather_subset"
      | Some subset =>
          let scope := match arg_scope args with
                       | Some s => s
                       | None => scope_default
                       end in
          if negb (mem_string scope scope_choices)
          then fail_json ("value of scope must be one of: effective, user, default, got: "
                          ++ scope)
          else if negb (forallb (fun s => mem_string s gather_subset_choices) subset)
          then fail_json "value of gather_subset must be one or more of the choices"
          else ret {| onefs_host := arg_onefs_host args;
                      include_all_access_zones := arg_include_all_access_zones args;
                      access_zone := match arg_access_zone args with
                                     | Some z => z
                                     | None => access_zone_default
                                     end;
                      scope := scope;
                      gather_subset := subset |}
      end
  end.

(** [Info.__init__]: build the module (validation), check the
    prerequisites, create the SDK clients. *)
Definition Info_init (cl : Client) (args : TaskArgs) : M Info :=
  params <- AnsibleModule mutually_exclusive_args args ;;
  match prereqs_error cl with
  | Some msg => fail_json msg
  | None => ret {| module_params := params; api := cl |}
  end.

Definition main (cl : Client) (args : TaskArgs) : M unit :=
  obj <- Info_init cl args ;;
  perform_module_operation obj.

(* ================================================================== *)
(** * The dispatch read as a table *)
(* ================================================================== *)

(** One name per local of [perform_module_operation]. *)
Inductive Category : Type :=
| Attributes | AccessZones | Nodes | Providers | Users | Groups | SmbShares
| Clients | NfsExports | NfsAliases | SynciqReports | SynciqTargetReports
| SynciqPolicies | SynciqTargetClusterCertificates | SynciqPerformanceRules
| NetworkGroupnets | NetworkPools | NetworkRules | NetworkInterfaces
| NetworkSubnets | NodePools | StoragePoolTiers | SmbFiles | UserMappingRules
| Ldap | NfsZoneSettings | NfsDefaultSettings | NfsGlobalSettings
| SynciqGlobalSettings | S3Buckets | SmbGlobalSettings | NtpServers
| EmailSettings | ClusterIdentity | ClusterOwner | SnmpSettings
| ServerCertificate | Roles | SupportAssistSettings.

Definition Category_eq_dec (a b : Category) : {a = b} + {a <> b}.
Proof. decide equality. Defined.

Definition Category_eqb (a b : Category) : bool :=
  if Category_eq_dec a b then true else false.

(** The order of the [if] statements. *)
Definition dispatch_order : list Category :=
  [Attributes; AccessZones; Nodes; Providers; Users; Groups; SmbShares;
   Clients; NfsExports; NfsAliases; SynciqReports; SynciqTargetReports;
   SynciqPolicies; SynciqTargetClusterCertificates; SynciqPerformanceRules;
   NetworkGroupnets; NetworkPools; NetworkRules; NetworkInterfaces;
   NetworkSubnets; NodePools; StoragePoolTiers; SmbFiles; UserMappingRules;
   Ldap; NfsZoneSettings; NfsDefaultSettings; NfsGlobalSettings;
   SynciqGlobalSettings; S3Buckets; SmbGlobalSettings; NtpServers;
   EmailSettings; ClusterIdentity; ClusterOwner; SnmpSettings;
   ServerCertificate; Roles; SupportAssistSettings].

(** The order of the keys of the result dict. *)
Definition result_order : list Category :=
  [Attributes; AccessZones; Nodes; Providers; Users; Groups; SmbShares;
   Clients; NfsExports; NfsAliases; SynciqReports; SynciqTargetReports;
   SynciqPolicies; SynciqPerformanceRules; NetworkGroupnets; NetworkPools;
   NetworkRules; NetworkInterfaces; NetworkSubnets; NodePools;
   StoragePoolTiers; SmbFiles; UserMappingRules; Ldap; NfsZoneSettings;
   NfsDefaultSettings; NfsGlobalSettings; SynciqGlobalSettings; S3Buckets;
   SmbGlobalSettings; NtpServers; EmailSettings; ClusterIdentity;
   ClusterOwner; SnmpSettings; ServerCertificate; Roles;
   SupportAssistSettings; SynciqTargetClusterCertificates].

(** The literal tested against [str(subset)]. *)
Definition gather_id (c : Category) : string :=
  match c with
  | Attributes => "attributes"
  | AccessZones => "access_zones"
  | Nodes => "nodes"
  | Providers => "providers"
  | Users => "users"
  | Groups => "groups"
  | SmbShares => "smb_shares"
  | Clients => "clients"
  | NfsExports => "nfs_exports"
  | NfsAliases => "nfs_aliases"
  | SynciqReports => "synciq_reports"
  | SynciqTargetReports => "synciq_target_reports"
  | SynciqPolicies => "synciq_policies"
  | SynciqTargetClusterCertificates => "synciq_target_cluster_certificates"
  | SynciqPerformanceRules => "synciq_performance_rules"
  | NetworkGroupnets => "network_groupnets"
  | NetworkPools => "network_pools"
  | NetworkRules => "network_rules"
  | NetworkInterfaces => "network_interfaces"
  | NetworkSubnets => "network_subnets"
  | NodePools => "node_pools"
  | StoragePoolTiers => "storagepool_tiers"
  | SmbFiles => "smb_files"
  | UserMappingRules => "user_mapping_rules"
  | Ldap => "ldap"
  | NfsZoneSettings => "nfs_zone_settings"
  | NfsDefaultSettings => "nfs_default_settings"
  | NfsGlobalSettings => "nfs_global_settings"
  | SynciqGlobalSettings => "synciq_global_settings"
  | S3Buckets => "s3_buckets"
  | SmbGlobalSettings => "smb_global_settings"
  | NtpServers => "ntp_servers"
  | EmailSettings => "email_settings"
  | ClusterIdentity => "cluster_identity"
  | ClusterOwner => "cluster_owner"
  | SnmpSettings => "snmp_settings"
  | ServerCertificate => "server_certificate"
  | Roles => "roles"
  | SupportAssistSettings => "support_assist_settings"
  end.

(** The key of the result dict that carries the local. *)
Definition result_key (c : Category) : string :=
  match c with
  | Attributes => "Attributes"
  | AccessZones => "AccessZones"
  | Nodes => "Nodes"
  | Providers => "Providers"
  | Users => "Users"
  | Groups => "Groups"
  | SmbShares => "SmbShares"
  | Clients => "Clients"
  | NfsExports => "NfsExports"
  | NfsAliases => "NfsAliases"
  | SynciqReports => "SynciqReports"
  | SynciqTargetReports => "SynciqTargetReports"
  | SynciqPolicies => "SynciqPolicies"
  | SynciqTargetClusterCertificates => "SynciqTargetClusterCertificate"
  | SynciqPerformanceRules => "SynciqPerformanceRules"
  | NetworkGroupnets => "NetworkGroupnets"
  | NetworkPools => "NetworkPools"
  | NetworkRules => "NetworkRules"
  | NetworkInterfaces => "NetworkInterfaces"
  | NetworkSubnets => "NetworkSubnets"
  | NodePools => "NodePools"
  | StoragePoolTiers => "StoragePoolTiers"
  | SmbFiles => "SmbOpenFiles"
  | UserMappingRules => "UserMappingRules"
  | Ldap => "LdapProviders"
  | NfsZoneSettings => "NfsZoneSettings"
  | NfsDefaultSettings => "NfsDefaultSettings"
  | NfsGlobalSettings => "NfsGlobalSettings"
  | SynciqGlobalSettings => "SynciqGlobalSettings"
  | S3Buckets => "s3Buckets"
  | SmbGlobalSettings => "SmbGlobalSettings"
  | NtpServers => "NTPServers"
  | EmailSettings => "EmailSettings"
  | ClusterIdentity => "ClusterIdentity"
  | ClusterOwner => "ClusterOwner"
  | SnmpSettings => "SnmpSettings"
  | ServerCertificate => "ServerCertificate"
  | Roles => "roles"
  | SupportAssistSettings => "support_assist_settings"
  end.

(** The empty value each local is initialised with. *)
Definition default_value (c : Category) : Value :=
  match c with
  | NfsZoneSettings | NfsDefaultSettings | NfsGlobalSettings
  | SynciqGlobalSettings | S3Buckets | SmbGlobalSettings | NtpServers
  | EmailSettings | ClusterIdentity | ClusterOwner | SnmpSettings
  | Roles | SupportAssistSettings => VDict []
  | _ => VList []
  end.

(** The call made when the category is requested. *)
Definition handler (self : Info) (c : Category) : M Value :=
  let include_all_access_zones :=
    none_or_bool (include_all_access_zones (module_params self)) in
  let access_zone := VStr (access_zone (module_params self)) in
  let scope := VStr (scope (module_params self)) in
  match c with
  | Attributes => get_attributes_list self
  | AccessZones => get_access_zones_list self
  | Nodes => get_nodes_list self
  | Providers => get_providers_list self access_zone
  | Users => get_users_list self access_zone
  | Groups => get_groups_list self access_zone
  | SmbShares => get_smb_shares_list self access_zone
  | Clients => get_clients_list self
  | NfsExports => get_nfs_exports_list self access_zone
  | NfsAliases => get_nfs_aliases_list self access_zone
  | SynciqReports => get_synciq_reports self
  | SynciqTargetReports => get_synciq_target_reports self
  | SynciqPolicies => get_syniq_policies_list self
  | SynciqTargetClusterCertificates => get_synciq_target_cluster_certificates_list self
  | SynciqPerformanceRules => get_synciq_performance_rules self
  | NetworkGroupnets => get_network_groupnets self
  | NetworkPools => get_network_pools self access_zone include_all_access_zones
  | NetworkRules => get_network_rules self
  | NetworkInterfaces => get_network_interfaces self
  | NetworkSubnets => get_network_subnets self
  | NodePools => get_node_pools self
  | StoragePoolTiers => get_storagepool_tiers self
  | SmbFiles => get_smb_files self
  | UserMappingRules => get_user_mapping_rules self access_zone
  | Ldap => get_ldap_providers self scope
  | NfsZoneSettings => get_zone_settings self access_zone
  | NfsDefaultSettings => call_shared self Protocol_get_nfs_default_settings [access_zone]
  | NfsGlobalSettings => get_nfs_global_settings self
  | SynciqGlobalSettings => call_shared self SyncIQ_get_synciq_global_settings []
  | S3Buckets => call_shared self Protocol_get_s3_bucket_list []
  | SmbGlobalSettings => call_shared self Protocol_get_smb_global_settings []
  | NtpServers => call_shared self Protocol_get_ntp_server_list []
  | EmailSettings => call_shared self Cluster_get_email_settings []
  | ClusterIdentity => call_shared self Cluster_get_cluster_identity_details []
  | ClusterOwner => call_shared self Cluster_get_cluster_owner_details []
  | SnmpSettings => call_shared self Protocol_get_snmp_settings []
  | ServerCertificate => call_shared self Certificate_get_server_certificate_with_default []
  | Roles => call_shared self Auth_get_auth_roles [access_zone]
  | SupportAssistSettings => call_shared self SupportAssist_get_support_assist_settings []
  end.

(** Whether the [if] of category [c] fires. *)
Definition requested (self : Info) (c : Category) : bool :=
  contains (gather_id c) (subset_text (module_params self)).

Definition assign (c : Category) (v : Value) (locals : Category -> Value)
  : Category -> Value :=
  fun c' => if Category_eqb c c' then v else locals c'.

(** The [if] statements of [cs], run in order over the locals; [k] is the
    rest of the method. *)
Fixpoint dispatch {A} (self : Info) (cs : list Category) (locals : Category -> Value)
  (k : (Category -> Value) -> M A) : M A :=
  match cs with
  | [] => k locals
  | c :: rest =>
      v <- (if requested self c then handler self c else ret (default_value c)) ;;
      dispatch self rest (assign c v locals) k
  end.

Definition build_result (locals : Category -> Value) : list (string * Value) :=
  map (fun c => (result_key c, locals c)) result_order.

Definition perform_by_table (self : Info) : M unit :=
  _ <- (if negb (truthy (subset_value (module_params self)))
        then fail_json "Please specify gather_subset" else ret tt) ;;
  dispatch self dispatch_order default_value
    (fun locals => exit_json (build_result locals)).

(* ================================================================== *)
(** * Vocabulary of the statements *)
(* ================================================================== *)

Section Vocabulary.

Local Open Scope list_scope.

(** [c] occurs in [h] as a contiguous block. *)
Definition infix (c h : list ascii) : Prop :=
  exists pre post, h = pre ++ c ++ post.

(** ['s'], the [repr] of plain text. *)
Definition quoted (s : string) : string :=
  String quote1 (s ++ String quote1 EmptyString).

Definition separators : list ascii :=
  [quote1; ascii_of_nat 44; ascii_of_nat 32; ascii_of_nat 91; ascii_of_nat 93].

(** Text free of quote, comma, blank and brackets. *)
Definition plain (s : string) : bool :=
  forallb (fun ch => negb (existsb (Ascii.eqb ch) separators)) (chars s).

(** The subset after validation: every element is one of the choices. *)
Definition valid_subset (l : list string) : Prop :=
  Forall (fun s => In s gather_subset_choices) l.

(** The category whose handler issues the SDK call. *)
Definition api_owner (m : ApiMethod) : Category :=
  match m with
  | cluster_api_get_cluster_config
  | cluster_api_get_cluster_external_ips
  | cluster_api_get_cluster_identity
  | cluster_api_get_cluster_owner
  | cluster_api_get_cluster_version => Attributes
  | zone_api_list_zones => AccessZones
  | cluster_api_get_cluster_nodes => Nodes
  | auth_api_get_providers_summary => Providers
  | auth_api_list_auth_users => Users
  | auth_api_list_auth_groups => Groups
  | protocol_api_list_smb_shares => SmbShares
  | statistics_api_get_summary_client => Clients
  | protocol_api_list_nfs_exports => NfsExports
  | protocol_api_list_nfs_aliases => NfsAliases
  | synciq_api_get_sync_reports => SynciqReports
  | synciq_api_list_sync_policies => SynciqPolicies
  | synciq_api_get_target_reports => SynciqTargetReports
  | synciq_api_list_certificates_peer => SynciqTargetClusterCertificates
  | synciq_api_list_sync_rules => SynciqPerformanceRules
  | network_api_list_network_groupnets => NetworkGroupnets
  | network_api_get_network_pools => NetworkPools
  | network_api_get_network_rules => NetworkRules
  | network_api_get_network_interfaces => NetworkInterfaces
  | network_api_get_network_subnets => NetworkSubnets
  | protocol_api_get_nfs_settings_zone => NfsZoneSettings
  | storagepool_api_list_storagepool_nodepools => NodePools
  | storagepool_api_list_storagepool_tiers => StoragePoolTiers
  | protocol_api_get_smb_openfiles => SmbFiles
  | auth_api_list_providers_ldap => Ldap
  | auth_api_get_mapping_users_rules => UserMappingRules
  | protocol_api_get_nfs_settings_global => NfsGlobalSettings
  end.

(** The category whose [if] reaches the shared-library operation. *)
Definition shared_owner (op : SharedOp) : Category :=
  match op with
  | Protocol_get_nfs_default_settings => NfsDefaultSettings
  | SyncIQ_get_synciq_global_settings => SynciqGlobalSettings
  | Protocol_get_s3_bucket_list => S3Buckets
  | Protocol_get_smb_global_settings => SmbGlobalSettings
  | Protocol_get_ntp_server_list => NtpServers
  | Cluster_get_email_settings => EmailSettings
  | Cluster_get_cluster_identity_details => ClusterIdentity
  | Cluster_get_cluster_owner_details => ClusterOwner
  | Protocol_get_snmp_settings => SnmpSettings
  | Certificate_get_server_certificate_with_default => ServerCertificate
  | Auth_get_auth_roles => Roles
  | SupportAssist_get_support_assist_settings => SupportAssistSettings
  end.

Definition owner (e : Event) : Category :=
  match e with
  | Remote m _ => api_owner m
  | Shared op _ => shared_owner op
  end.

(** The operation named at the head of the handler's failure text; [None]
    for the categories served by the shared library. *)
Definition operation (c : Category) : option string :=
  match c with
  | Attributes => Some "Get Attributes List"
  | AccessZones => Some "Get Access zone List"
  | Nodes => Some "Get Nodes List"
  | Providers => Some "Get authentication Providers List"
  | Users => Some "Get Users List"
  | Groups => Some "Get Group List"
  | SmbShares => Some "Get smb_shares list"
  | Clients => Some "Get active clients list"
  | NfsExports => Some "Get nfs_exports list"
  | NfsAliases => Some "Getting list of NFS aliases"
  | SynciqReports => Some "Get SyncIQ Report list"
  | SynciqTargetReports => Some "Get SyncIQ Target Report list"
  | SynciqPolicies => Some "Get list of SyncIQ Policies"
  | SynciqTargetClusterCertificates =>
      Some "Get list of SyncIQ target cluster certificates"
  | SynciqPerformanceRules => Some "Get SyncIQ performance rules list"
  | NetworkGroupnets => Some "Getting list of network groupnets"
  | NetworkPools => Some "Getting list of network pools"
  | NetworkRules => Some "Getting list of network rules"
  | NetworkInterfaces => Some "Getting list of network interfaces"
  | NetworkSubnets => Some "Getting list of network subnets"
  | NodePools => Some "Getting list of node pools"
  | StoragePoolTiers => Some "Getting list of storagepool tiers"
  | SmbFiles => Some "Getting list of smb open files"
  | UserMappingRules => Some "Getting list of user mapping rules"
  | Ldap => Some "Getting list of ldap providers"
  | NfsZoneSettings => Some "Getting zone settings"
  | NfsGlobalSettings => Some "Getting NFS global settings"
  | _ => None
  end.

(** What every handler guarantees: it leaves at least one event, all its
    events belong to its category, and a handler of this file never lets an
    exception escape and names its operation and the host when it fails. *)
Definition well_behaved (self : Info) (c : Category) (h : M Value) : Prop :=
  trace h <> [] /\
  (forall e, In e (trace h) -> owner e = c) /\
  (forall op, operation c = Some op ->
     (forall e, outcome h <> Raised e) /\
     (forall x, outcome h = Exited x ->
        exists msg, x = FailJson msg /\
                    contains (host self) msg = true /\ contains op msg = true)).

(** One [if] statement. *)
Definition step (self : Info) (c : Category) : M Value :=
  if requested self c then handler self c else ret (default_value c).

(** The value the [if] of [c] leaves in its local when it returns. *)
Definition step_value (self : Info) (c : Category) : Value :=
  match outcome (step self c) with
  | Return v => v
  | _ => default_value c
  end.

Fixpoint traces (self : Info) (cs : list Category) : list Event :=
  match cs with
  | [] => []
  | c :: rest => trace (step self c) ++ traces self rest
  end.

Fixpoint locals_after (self : Info) (cs : list Category) (locals : Category -> Value)
  : Category -> Value :=
  match cs with
  | [] => locals
  | c :: rest => locals_after self rest (assign c (step_value self c) locals)
  end.

Definition prepend {A} (t : list Event) (m : M A) : M A :=
  (t ++ trace m, outcome m).

Fixpoint distinct (cs : list Category) : bool :=
  match cs with
  | [] => true
  | c :: rest => negb (existsb (Category_eqb c) rest) && distinct rest
  end.

Fixpoint distinct_strings (l : list string) : bool :=
  match l with
  | [] => true
  | s :: rest => negb (mem_string s rest) && distinct_strings rest
  end.

(** The same invocation with another [gather_subset]. *)
Definition with_subset (self : Info) (l : list string) : Info :=
  {| module_params :=
       {| onefs_host := onefs_host (module_params self);
          include_all_access_zones := include_all_access_zones (module_params self);
          access_zone := access_zone (module_params self);
          scope := scope (module_params self);
          gather_subset := l |};
     api := api self |}.

Inductive RuleType : Type := Bandwidth | Cpu | FileCount | Worker.

Definition type_name (t : RuleType) : string :=
  match t with
  | Bandwidth => "bandwidth"
  | Cpu => "cpu"
  | FileCount => "file_count"
  | Worker => "worker"
  end.

(** The unit table as the specification words it. *)
Definition spec_unit (t : RuleType) : string :=
  match t with
  | Bandwidth => "kb/s"
  | Cpu => "%"
  | FileCount => "files/sec"
  | Worker => "%"
  end.

Record RuleRow : Type := {
  row_id : Value;
  row_schedule : Value;
  row_enabled : Value;
  row_type : RuleType;
  row_limit : Z
}.

(** The raw rule carries the fields of the row (and possibly others). *)
Definition describes (rule : Value) (row : RuleRow) : Prop :=
  getitem rule "id" = Ok (row_id row) /\
  getitem rule "schedule" = Ok (row_schedule row) /\
  getitem rule "enabled" = Ok (row_enabled row) /\
  getitem rule "type" = Ok (VStr (type_name (row_type row))) /\
  getitem rule "limit" = Ok (VInt (row_limit row)).

(** What the specification asks for the row. *)
Definition normalized_rule (row : RuleRow) : Value :=
  VDict [("id", row_id row); ("schedule", row_schedule row);
         ("enabled", row_enabled row); ("type", VStr (type_name (row_type row)));
         ("limit", VStr (str_of_Z (row_limit row) ++ spec_unit (row_type row))%string)].

(** The rules with their positions written in, counting from [start + 1]. *)
Fixpoint annotate (start : nat) (ds : list (list (string * Value))) : list Value :=
  match ds with
  | [] => []
  | d :: rest =>
      VDict (dict_set "apply_order" (VInt (Z.of_nat start + 1)) d)
      :: annotate (S start) rest
  end.

(** The SDK call of the category and the field of its response that holds
    the part the handler returns or walks through. *)
Definition sublist_field (c : Category) : option (ApiMethod * string) :=
  match c with
  | SmbShares => Some (protocol_api_list_smb_shares, "shares")
  | Clients => Some (statistics_api_get_summary_client, "client")
  | NfsExports => Some (protocol_api_list_nfs_exports, "exports")
  | NfsAliases => Some (protocol_api_list_nfs_aliases, "aliases")
  | SynciqReports => Some (synciq_api_get_sync_reports, "reports")
  | SynciqTargetReports => Some (synciq_api_get_target_reports, "reports")
  | SynciqPolicies => Some (synciq_api_list_sync_policies, "policies")
  | SynciqTargetClusterCertificates =>
      Some (synciq_api_list_certificates_peer, "certificates")
  | SynciqPerformanceRules => Some (synciq_api_list_sync_rules, "rules")
  | NetworkGroupnets => Some (network_api_list_network_groupnets, "groupnets")
  | NetworkPools => Some (network_api_get_network_pools, "pools")
  | NetworkRules => Some (network_api_get_network_rules, "rules")
  | NetworkInterfaces => Some (network_api_get_network_interfaces, "interfaces")
  | NetworkSubnets => Some (network_api_get_network_subnets, "subnets")
  | NodePools => Some (storagepool_api_list_storagepool_nodepools, "nodepools")
  | StoragePoolTiers => Some (storagepool_api_list_storagepool_tiers, "tiers")
  | SmbFiles => Some (protocol_api_get_smb_openfiles, "openfiles")
  | UserMappingRules => Some (auth_api_get_mapping_users_rules, "rules")
  | Ldap => Some (auth_api_list_providers_ldap, "ldap")
  | NfsZoneSettings => Some (protocol_api_get_nfs_settings_zone, "settings")
  | NfsGlobalSettings => Some (protocol_api_get_nfs_settings_global, "settings")
  | _ => None
  end.

(** The handlers that test [if <sub-list>:] before the loop. *)
Definition guards_sublist (c : Category) : bool :=
  match c with
  | SmbShares | Clients | NfsExports | SynciqPolicies
  | SynciqTargetClusterCertificates | NetworkGroupnets | NetworkPools
  | NetworkRules | NetworkSubnets => true
  | _ => false
  end.

(** The handlers that return the field as it comes. *)
Definition passes_through (c : Category) : bool :=
  match c with
  | NfsAliases | NetworkInterfaces | NodePools | StoragePoolTiers | SmbFiles
  | Ldap | NfsGlobalSettings => true
  | _ => false
  end.

(** The property as the specification states it: whenever the field is
    [None], the handler returns the category's empty default. *)
Definition absent_sublist_gives_default : Prop :=
  forall (self : Info) (c : Category) (m : ApiMethod) (f : string) (details : Value),
    sublist_field c = Some (m, f) ->
    (forall kw, respond (api self) m kw = Ok details) ->
    getitem details f = Ok VNone ->
    outcome (handler self c) = Return (default_value c).

(** A cluster stub for examples: the SDK answers with [answer], the shared
    library returns empty settings. *)
Definition stub (answer : ApiMethod -> Kwargs -> Result Value) : Client :=
  {| respond := answer;
     shared_library := fun _ _ => Return (VDict []);
     determine_error := fun e => match e with
                                 | KeyError k => k
                                 | TypeError msg => msg
                                 | IndexError msg => msg
                                 | UnboundLocalError v => v
                                 | ApiException msg => msg
                                 end;
     prereqs_error := None |}.

Definition sample (answer : ApiMethod -> Kwargs -> Result Value) (subset : list string)
  : Info :=
  {| module_params := {| onefs_host := "10.0.0.1";
                         include_all_access_zones := None;
                         access_zone := "System";
                         scope := "effective";
                         gather_subset := subset |};
     api := stub answer |}.

Definition aliases_none : Info :=
  sample (fun _ _ => Ok (VDict [("aliases", VNone)])) ["nfs_aliases"%string].

(** A cluster with no nodes, asked for the nodes only. *)
Definition nodes_only : Info :=
  sample (fun _ _ => Ok (VDict [("nodes", VList [])])) ["nodes"%string].

(** An unreachable cluster, asked for nodes and users. *)
Definition unreachable : Info :=
  sample (fun _ _ => Raise (ApiException "unreachable")) ["nodes"; "users"]%string.

Definition both_given : TaskArgs :=
  {| arg_onefs_host := "10.0.0.1";
     arg_include_all_access_zones := Some true;
     arg_access_zone := Some "zone1"%string;
     arg_scope := None;
     arg_gather_subset := Some ["network_pools"%string] |}.

Definition one_rule : Value :=
  VDict [("id", VStr "bw-0"); ("schedule", VNone); ("enabled", VBool true);
         ("type", VStr "bandwidth"); ("limit", VInt 10);
         ("description", VStr "night")].

Definition one_rule_row : RuleRow :=
  {| row_id := VStr "bw-0"; row_schedule := VNone; row_enabled := VBool true;
     row_type := Bandwidth; row_limit := 10 |}.

Definition rules_listing : Info :=
  sample (fun _ _ => Ok (VDict [("rules", VList [one_rule]); ("total", VInt 1)]))
         ["synciq_performance_rules"%string].

Definition three_rules : list (list (string * Value)) :=
  [[("operator", VStr "append")]; [("operator", VStr "insert")];
   [("operator", VStr "replace"); ("apply_order", VInt 9)]].

Definition mapping_listing : Info :=
  sample (fun _ _ => Ok (VDict [("rules", VDict [("rules", VList (map VDict three_rules))])]))
         ["user_mapping_rules"%string].

Definition shares_none : Info :=
  sample (fun _ _ => Ok (VDict [("shares", VNone)])) ["smb_shares"%string].

(** ** Tables read off the handlers *)

(** The one SDK call made by a handler of this file, with its keyword
    arguments ([get_attributes_list] makes five and is left out). *)
Definition sdk_call (self : Info) (c : Category) : option (ApiMethod * Kwargs) :=
  let zone := VStr (access_zone (module_params self)) in
  match c with
  | AccessZones => Some (zone_api_list_zones, [])
  | Nodes => Some (cluster_api_get_cluster_nodes, [])
  | Providers => Some (auth_api_get_providers_summary, [("zone", zone)])
  | Users => Some (auth_api_list_auth_users, [("zone", zone)])
  | Groups => Some (auth_api_list_auth_groups, [("zone", zone)])
  | SmbShares => Some (protocol_api_list_smb_shares, [("zone", zone)])
  | Clients => Some (statistics_api_get_summary_client, [])
  | NfsExports => Some (protocol_api_list_nfs_exports, [("zone", zone)])
  | NfsAliases =>
      Some (protocol_api_list_nfs_aliases, [("zone", zone); ("check", VBool true)])
  | SynciqReports => Some (synciq_api_get_sync_reports, [])
  | SynciqTargetReports => Some (synciq_api_get_target_reports, [])
  | SynciqPolicies => Some (synciq_api_list_sync_policies, [])
  | SynciqTargetClusterCertificates => Some (synciq_api_list_certificates_peer, [])
  | SynciqPerformanceRules => Some (synciq_api_list_sync_rules, [])
  | NetworkGroupnets => Some (network_api_list_network_groupnets, [])
  | NetworkPools =>
      Some (network_api_get_network_pools,
            match include_all_access_zones (module_params self) with
            | Some true => []
            | _ => [("access_zone", zone)]
            end)
  | NetworkRules => Some (network_api_get_network_rules, [])
  | NetworkInterfaces => Some (network_api_get_network_interfaces, [])
  | NetworkSubnets => Some (network_api_get_network_subnets, [])
  | NodePools => Some (storagepool_api_list_storagepool_nodepools, [])
  | StoragePoolTiers => Some (storagepool_api_list_storagepool_tiers, [])
  | SmbFiles => Some (protocol_api_get_smb_openfiles, [])
  | UserMappingRules => Some (auth_api_get_mapping_users_rules, [("zone", zone)])
  | Ldap => Some (auth_api_list_providers_ldap, [("scope", VStr (scope (module_params self)))])
  | NfsZoneSettings => Some (protocol_api_get_nfs_settings_zone, [("zone", zone)])
  | NfsGlobalSettings => Some (protocol_api_get_nfs_settings_global, [])
  | _ => None
  end.

(** The five calls of [get_attributes_list], in the order of the body. *)
Definition attributes_calls : list Event :=
  [Remote cluster_api_get_cluster_config [];
   Remote cluster_api_get_cluster_external_ips [];
   Remote cluster_api_get_cluster_identity [];
   Remote cluster_api_get_cluster_owner [];
   Remote cluster_api_get_cluster_version []].

(** The handlers that return the whole response dict. *)
Definition returns_response (c : Category) : option ApiMethod :=
  match c with
  | AccessZones => Some zone_api_list_zones
  | Nodes => Some cluster_api_get_cluster_nodes
  | Providers => Some auth_api_get_providers_summary
  | Users => Some auth_api_list_auth_users
  | Groups => Some auth_api_list_auth_groups
  | _ => None
  end.

(** The (output key, source key) pairs of the dict a guarded handler builds
    per element. *)
Definition projected_fields (c : Category) : list (string * string) :=
  match c with
  | SmbShares | NetworkGroupnets | NetworkPools | NetworkRules | NetworkSubnets =>
      [("id", "id"); ("name", "name")]
  | SynciqTargetClusterCertificates => [("name", "name"); ("id", "id")]
  | NfsExports => [("id", "id"); ("paths", "paths")]
  | Clients =>
      [("local_address", "local_addr"); ("local_name", "local_name");
       ("remote_address", "remote_addr"); ("remote_name", "remote_name");
       ("node", "node"); ("protocol", "protocol")]
  | SynciqPolicies =>
      [("name", "name"); ("id", "id"); ("source_root_path", "source_root_path");
       ("target_path", "target_path"); ("action", "action");
       ("schedule", "schedule"); ("enabled", "enabled")]
  | _ => []
  end.

Definition value_or_none (o : option Value) : Value :=
  match o with
  | Some v => v
  | None => VNone
  end.

(** The element [d] seen through [fields]: each output key with the value
    of its source key. *)
Definition pick (fields : list (string * string)) (d : list (string * Value))
  : list (string * Value) :=
  map (fun ok => (fst ok, value_or_none (lookup (snd ok) d))) fields.

(** [d] has every source key of [fields]. *)
Definition has_fields (fields : list (string * string)) (d : list (string * Value))
  : Prop :=
  Forall (fun ok => lookup (snd ok) d <> None) fields.

(** The handlers whose loop or item assignment is not guarded. *)
Definition unguarded (c : Category) : bool :=
  match c with
  | SynciqPerformanceRules | UserMappingRules | NfsZoneSettings => true
  | _ => false
  end.

(** The two report listings, driven by [total]. *)
Definition lists_reports (c : Category) : bool :=
  match c with
  | SynciqReports | SynciqTargetReports => true
  | _ => false
  end.

Definition report_fields : list (string * string) :=
  [("id", "id"); ("name", "policy_name")].

(** ** More concrete runs *)

Definition empty_request : Info :=
  sample (fun _ _ => Ok (VDict [])) [].

Definition all_zones : Info :=
  {| module_params := {| onefs_host := "10.0.0.1";
                         include_all_access_zones := Some true;
                         access_zone := "System";
                         scope := "effective";
                         gather_subset := ["network_pools"%string] |};
     api := stub (fun _ _ => Ok (VDict [("pools", VNone)])) |}.

Definition two_shares : Info :=
  sample (fun _ _ =>
            Ok (VDict [("shares",
                        VList [VDict [("id", VStr "s1"); ("name", VStr "home");
                                      ("path", VStr "/ifs/home")];
                               VDict [("name", VStr "tmp"); ("id", VStr "s2")]])]))
         ["smb_shares"%string].

Definition broken_share : Info :=
  sample (fun _ _ =>
            Ok (VDict [("shares",
                        VList [VDict [("id", VStr "s1"); ("name", VStr "home")];
                               VDict [("id", VStr "s2")]])]))
         ["smb_shares"%string].

Definition zone_settings_listing : Info :=
  sample (fun _ _ => Ok (VDict [("settings", VDict [("nfsv4_domain", VStr "localhost")])]))
         ["nfs_zone_settings"%string].

Definition rules_none : Info :=
  sample (fun _ _ => Ok (VDict [("rules", VNone)])) ["synciq_performance_rules"%string].

Definition two_reports : list (list (string * Value)) :=
  [[("id", VStr "1-p"); ("policy_name", VStr "p"); ("state", VStr "finished")];
   [("id", VStr "2-q"); ("policy_name", VStr "q")]].

Definition reports_listing (total : Z) : Info :=
  sample (fun _ _ => Ok (VDict [("reports", VList (map VDict two_reports));
                                ("total", VInt total)]))
         ["synciq_reports"%string].

Definition bad_rule : Value :=
  VDict [("id", VStr "m-0"); ("schedule", VNone); ("enabled", VBool true);
         ("type", VStr "memory"); ("limit", VInt 4)].

Definition bad_rules_listing : Info :=
  sample (fun _ _ => Ok (VDict [("rules", VList [one_rule; bad_rule])]))
         ["synciq_performance_rules"%string].

Definition attributes_listing : Info :=
  sample (fun m _ =>
            match m with
            | cluster_api_get_cluster_external_ips =>
                Ok (VList [VStr "10.0.0.1"; VStr "10.0.0.2"])
            | _ => Ok (VDict [])
            end)
         ["attributes"%string].

Definition users_task : TaskArgs :=
  {| arg_onefs_host := "10.0.0.1";
     arg_include_all_access_zones := None;
     arg_access_zone := None;
     arg_scope := None;
     arg_gather_subset := Some ["users"%string] |}.

Definition missing_packages : Client :=
  {| respond := fun _ _ => Ok (VDict []);
     shared_library := fun _ _ => Return (VDict []);
     determine_error := fun _ => "error"%string;
     prereqs_error := Some "Unable to import the PowerScale SDK"%string |}.

(** ** Documented types of the result keys *)





(** The SDK methods of [get_attributes_list], in the order of the body. *)
Definition attribute_methods : list ApiMethod :=
  [cluster_api_get_cluster_config; cluster_api_get_cluster_external_ips;
   cluster_api_get_cluster_identity; cluster_api_get_cluster_owner;
   cluster_api_get_cluster_version].

(** The events of the requested handlers of [cs], handler after handler. *)
Definition calls_of (self : Info) (cs : list Category) : list Event :=
  flat_map (fun c => if requested self c then trace (handler self c) else []) cs.

End Vocabulary.

(* ================================================================== *)
(** * Theorems *)
(* ================================================================== *)

(** The table is the method: both unfold to the same chain of tests. *)
Lemma perform_module_operation_table (self : Info) :
  perform_module_operation self = perform_by_table self.
Proof. reflexivity. Qed.

(* ================================================================== *)
(** * Facts about text and the [in] test *)
(* ================================================================== *)

Section TextFacts.

Local Open Scope list_scope.

Lemma chars_app (a b : string) : chars (a ++ b)%string = chars a ++ chars b.
Proof.
  induction a as [|x a IH]; simpl; [reflexivity|].
  unfold chars in *. simpl. now rewrite IH.
Qed.

Lemma chars_inj (a b : string) : chars a = chars b -> a = b.
Proof.
  intro H. unfold chars in H.
  rewrite <- (string_of_list_ascii_of_string a), <- (string_of_list_ascii_of_string b).
  now rewrite H.
Qed.

Lemma prefix_chars (n h : string) :
  String.prefix n h = true <-> exists post, chars h = chars n ++ post.
Proof.
  revert n. induction h as [|y h IH]; intros [|x n]; simpl.
  - split; [exists []; reflexivity | reflexivity].
  - split; [discriminate | intros [post H]; discriminate].
  - split; [intros _; eexists; reflexivity | reflexivity].
  - destruct (ascii_dec x y) as [->|Hne].
    + rewrite IH. unfold chars. simpl. split.
      * intros [post H]. exists post. now rewrite H.
      * intros [post H]. exists post. now inversion H.
    + split; [discriminate|]. intros [post H]. unfold chars in H. simpl in H.
      inversion H. congruence.
Qed.

Lemma infix_cons (c : list ascii) (x : ascii) (h : list ascii) :
  infix c (x :: h) <-> (exists post, x :: h = c ++ post) \/ infix c h.
Proof.
  split.
  - intros [[|p pre] [post H]]; simpl in H.
    + left. now exists post.
    + right. inversion H. now exists pre, post.
  - intros [[post H] | [pre [post H]]].
    + exists [], post. exact H.
    + exists (x :: pre), post. simpl. now rewrite H.
Qed.

Lemma infix_nil (c : list ascii) : infix c [] <-> c = [].
Proof.
  split.
  - intros [pre [post H]]. symmetry in H.
    apply app_eq_nil in H as [_ H]. now apply app_eq_nil in H as [H _].
  - intros ->. now exists [], [].
Qed.

(** The boolean test is occurrence as a block. *)
Lemma contains_infix (n h : string) :
  contains n h = true <-> infix (chars n) (chars h).
Proof.
  induction h as [|y h IH].
  - rewrite infix_nil. destruct n as [|x n]; simpl.
    + split; reflexivity.
    + split; discriminate.
  - change (contains n (String y h))
      with (String.prefix n (String y h) || contains n h)%bool.
    rewrite orb_true_iff, prefix_chars, IH.
    change (chars (String y h)) with (y :: chars h). now rewrite infix_cons.
Qed.

Lemma infix_refl (c : list ascii) : infix c c.
Proof. exists [], []. simpl. now rewrite app_nil_r. Qed.

Lemma infix_within (c a x y : list ascii) : infix c a -> infix c (x ++ a ++ y).
Proof.
  intros [pre [post ->]]. exists (x ++ pre), (post ++ y).
  now rewrite <- !app_assoc.
Qed.

(** A block free of the character [d] cannot straddle an occurrence of [d]. *)
Lemma infix_split (c a b : list ascii) (d : ascii) :
  ~ In d c -> infix c (a ++ d :: b) -> infix c a \/ infix c b.
Proof.
  intros Hd [pre [post H]].
  apply app_eq_app in H as [l [[Ha Hc] | [Hp Hb]]].
  - symmetry in Hc. apply app_eq_app in Hc as [l2 [[Hl Hpost] | [Hc Hb]]].
    + left. subst a l. exists pre, l2. reflexivity.
    + destruct l2 as [|z l2].
      * left. rewrite app_nil_r in Hc. subst. exists pre, []. now rewrite app_nil_r.
      * simpl in Hb. inversion Hb; subst. exfalso. apply Hd.
        apply in_or_app. right. now left.
  - destruct l as [|z l]; simpl in Hb.
    + destruct c as [|z c].
      * left. exists a, []. now rewrite app_nil_r.
      * simpl in Hb. inversion Hb; subst. exfalso. apply Hd. now left.
    + inversion Hb; subst. right. now exists l, post.
Qed.

Lemma plain_no_separator (s : string) (d : ascii) :
  plain s = true -> In d separators -> ~ In d (chars s).
Proof.
  intros Hp Hd Hin. unfold plain in Hp. rewrite forallb_forall in Hp.
  specialize (Hp d Hin). apply negb_true_iff in Hp.
  assert (existsb (Ascii.eqb d) separators = true) as E.
  { apply existsb_exists. exists d. split; [exact Hd | apply Ascii.eqb_refl]. }
  congruence.
Qed.

Lemma join_cons2 (sep x y : string) (l : list string) :
  join sep (x :: y :: l) = (x ++ sep ++ join sep (y :: l))%string.
Proof. reflexivity. Qed.

Lemma chars_quoted (s : string) : chars (quoted s) = quote1 :: chars s ++ [quote1].
Proof.
  unfold quoted. change (chars (String quote1 (s ++ String quote1 ""))%string)
    with (quote1 :: chars (s ++ String quote1 "")%string).
  now rewrite chars_app.
Qed.

(** A plain, non-empty block found in a rendered list lies inside one of
    its elements. *)
Lemma infix_join_quoted (c : string) (l : list string) :
  plain c = true -> c <> EmptyString ->
  infix (chars c) (chars (join ", " (map quoted l))) ->
  exists x, In x l /\ infix (chars c) (chars x).
Proof.
  intros Hp Hne. induction l as [|x l IH]; intro H.
  - simpl in H. apply infix_nil in H. exfalso. apply Hne. now apply chars_inj.
  - assert (forall r, infix (chars c) (chars (quoted x) ++ r) ->
                      infix (chars c) (chars x) \/ infix (chars c) r) as Hq.
    { intros r Hr. rewrite chars_quoted in Hr. simpl in Hr.
      apply (infix_split _ [] _ quote1) in Hr;
        [|apply plain_no_separator; [exact Hp | now left]].
      destruct Hr as [Hr | Hr].
      { apply infix_nil in Hr. exfalso. apply Hne. now apply chars_inj. }
      rewrite <- app_assoc in Hr. simpl in Hr.
      apply infix_split in Hr; [|apply plain_no_separator; [exact Hp | now left]].
      exact Hr. }
    destruct l as [|y l].
    + change (join ", " (map quoted [x])) with (quoted x) in H.
      rewrite <- (app_nil_r (chars (quoted x))) in H.
      apply Hq in H as [H | H].
      * exists x. split; [now left | exact H].
      * apply infix_nil in H. exfalso. apply Hne. now apply chars_inj.
    + change (map quoted (x :: y :: l)) with (quoted x :: quoted y :: map quoted l) in H.
      rewrite join_cons2, !chars_app in H.
      apply Hq in H as [H | H].
      * exists x. split; [now left | exact H].
      * change (chars ", ") with ([ascii_of_nat 44] ++ [ascii_of_nat 32]) in H.
        rewrite <- app_assoc in H.
        apply (infix_split _ [] _ (ascii_of_nat 44)) in H;
          [|apply plain_no_separator; [exact Hp | right; now left]].
        destruct H as [H | H].
        { apply infix_nil in H. exfalso. apply Hne. now apply chars_inj. }
        apply (infix_split _ [] _ (ascii_of_nat 32)) in H;
          [|apply plain_no_separator; [exact Hp | right; right; now left]].
        destruct H as [H | H].
        { apply infix_nil in H. exfalso. apply Hne. now apply chars_inj. }
        destruct (IH H) as [z [Hz Hi]]. exists z. split; [now right | exact Hi].
Qed.

Lemma infix_of_member (x : string) (l : list string) :
  In x l -> infix (chars x) (chars (join ", " (map quoted l))).
Proof.
  induction l as [|y l IH]; [contradiction|].
  intros [-> | Hin].
  - destruct l as [|z l].
    + change (join ", " (map quoted [x])) with (quoted x).
      rewrite chars_quoted. apply (infix_within _ _ [quote1] [quote1]), infix_refl.
    + change (map quoted (x :: z :: l)) with (quoted x :: quoted z :: map quoted l).
      rewrite join_cons2, chars_app, chars_quoted.
      change (quote1 :: chars x ++ [quote1]) with ([quote1] ++ chars x ++ [quote1]).
      rewrite <- !app_assoc. apply infix_within, infix_refl.
  - destruct l as [|z l]; [contradiction|].
    change (map quoted (y :: z :: l)) with (quoted y :: quoted z :: map quoted l).
    rewrite join_cons2, !chars_app.
    rewrite app_assoc, <- (app_nil_r (chars (join ", " (quoted z :: map quoted l)))).
    apply infix_within, IH, Hin.
Qed.

End TextFacts.

(* ================================================================== *)
(** * The valid identifiers *)
(* ================================================================== *)

Section Choices.

Lemma mem_string_In (s : string) (l : list string) :
  mem_string s l = true <-> In s l.
Proof.
  unfold mem_string. rewrite existsb_exists. split.
  - intros [x [Hin Heq]]. apply String.eqb_eq in Heq. now subst.
  - intro Hin. exists s. split; [exact Hin | apply String.eqb_refl].
Qed.

Lemma choices_forall (P : string -> bool) :
  forallb P gather_subset_choices = true ->
  forall s, In s gather_subset_choices -> P s = true.
Proof. intro H. now apply forallb_forall. Qed.

Lemma choice_repr (s : string) :
  In s gather_subset_choices -> repr_str s = quoted s.
Proof.
  intro H. apply String.eqb_eq.
  revert s H. apply (choices_forall (fun s => String.eqb (repr_str s) (quoted s))).
  vm_compute. reflexivity.
Qed.

Lemma choice_plain (s : string) : In s gather_subset_choices -> plain s = true.
Proof. revert s. apply choices_forall. vm_compute. reflexivity. Qed.

Lemma choice_nonempty (s : string) : In s gather_subset_choices -> s <> EmptyString.
Proof.
  intros H E. subst s. apply mem_string_In in H. vm_compute in H. discriminate.
Qed.

(** No valid identifier occurs inside another one. *)
Lemma choice_exact (a b : string) :
  In a gather_subset_choices -> In b gather_subset_choices ->
  contains a b = true -> a = b.
Proof.
  intros Ha Hb Hc.
  assert (forallb (fun x => forallb (fun y => implb (contains x y) (String.eqb x y))
                                    gather_subset_choices)
                  gather_subset_choices = true) as T by (vm_compute; reflexivity).
  rewrite forallb_forall in T. specialize (T a Ha).
  rewrite forallb_forall in T. specialize (T b Hb).
  rewrite Hc in T. simpl in T. now apply String.eqb_eq.
Qed.

Lemma gather_id_choice (c : Category) : In (gather_id c) gather_subset_choices.
Proof. apply mem_string_In. destruct c; vm_compute; reflexivity. Qed.

(** Every choice is tested by exactly the [if] of one category. *)
Lemma choice_gather_id (s : string) :
  In s gather_subset_choices -> exists c, s = gather_id c.
Proof.
  intro H.
  assert (mem_string s (map gather_id dispatch_order) = true) as T.
  { revert s H. apply choices_forall. vm_compute. reflexivity. }
  apply mem_string_In, in_map_iff in T as [c [E _]]. now exists c.
Qed.

(** The text of a validated subset: brackets, quoted names, comma-blank. *)
Lemma subset_text_valid (l : list string) :
  valid_subset l ->
  py_str (VList (map VStr l)) = ("[" ++ join ", " (map quoted l) ++ "]")%string.
Proof.
  intro Hv. simpl. do 3 f_equal. rewrite map_map. simpl.
  apply map_ext_in. intros s Hs. apply choice_repr.
  unfold valid_subset in Hv. rewrite Forall_forall in Hv. now apply Hv.
Qed.

(** On a validated subset the text test is list membership. *)
Lemma contains_valid (l : list string) (c : string) :
  valid_subset l -> In c gather_subset_choices ->
  contains c (py_str (VList (map VStr l))) = true <-> In c l.
Proof.
  intros Hv Hc. rewrite (subset_text_valid l Hv), contains_infix, !chars_app.
  change (chars "[") with [ascii_of_nat 91]. change (chars "]") with [ascii_of_nat 93].
  split.
  - intro H. simpl in H.
    apply (infix_split _ [] _ (ascii_of_nat 91)) in H;
      [|apply plain_no_separator;
        [now apply choice_plain | right; right; right; now left]].
    destruct H as [H | H].
    { apply infix_nil in H. exfalso. apply (choice_nonempty c Hc). now apply chars_inj. }
    apply infix_split in H;
      [|apply plain_no_separator;
        [now apply choice_plain | right; right; right; right; now left]].
    destruct H as [H | H].
    + apply infix_join_quoted in H;
        [|now apply choice_plain | now apply choice_nonempty].
      destruct H as [x [Hx Hi]].
      unfold valid_subset in Hv. rewrite Forall_forall in Hv.
      apply contains_infix in Hi. now rewrite (choice_exact c x Hc (Hv x Hx) Hi).
    + apply infix_nil in H. exfalso. apply (choice_nonempty c Hc). now apply chars_inj.
  - intro Hin. apply infix_within. now apply infix_of_member.
Qed.

End Choices.

(* ================================================================== *)
(** * Facts about the handlers *)
(* ================================================================== *)

Section HandlerFacts.

Local Open Scope list_scope.
#[local] Arguments String.append _ _ : simpl never.

(** ** Text of failure messages *)

Lemma contains_mid (x a r : string) : contains x (a ++ x ++ r)%string = true.
Proof. apply contains_infix. rewrite !chars_app. apply infix_within, infix_refl. Qed.

Lemma contains_left (x a r : string) :
  contains x a = true -> contains x (a ++ r)%string = true.
Proof.
  rewrite !contains_infix, chars_app. intro H.
  apply (infix_within _ _ [] (chars r)) in H. exact H.
Qed.

(** ** One remote call inside [try]/[except] *)

Lemma lift_trace {A} (r : Result A) : trace (lift r) = [].
Proof. now destruct r. Qed.

(** A handler that makes one SDK call, then computes without further
    calls, and turns any exception into [fail_json]. *)
Lemma try_call_run (self : Info) (m : ApiMethod) (kw : Kwargs)
      (k : Value -> M Value) (msg : Exn -> string) :
  (forall x, exists r, k x = lift r) ->
  let h := try_except (x <- call self m kw ;; k x) (fun e => fail_json (msg e)) in
  trace h = [Remote m kw] /\
  ((exists v, outcome h = Return v) \/ (exists e, outcome h = Exited (FailJson (msg e)))).
Proof.
  intros Hk h. subst h. unfold call, remote.
  destruct (respond (api self) m kw) as [v | e]; simpl.
  - destruct (Hk v) as [r ->]. destruct r as [v' | e']; simpl.
    + split; [reflexivity | left; now exists v'].
    + split; [reflexivity | right; now exists e'].
  - split; [reflexivity | right; now exists e].
Qed.

Lemma one_call_well_behaved (self : Info) (c : Category) (m : ApiMethod) (kw : Kwargs)
      (k : Value -> M Value) (a : string) (r : Exn -> string) :
  (forall x, exists res, k x = lift res) ->
  api_owner m = c ->
  (forall op, operation c = Some op -> contains op a = true) ->
  well_behaved self c
    (try_except (x <- call self m kw ;; k x)
                (fun e => fail_json (a ++ host self ++ r e)%string)).
Proof.
  intros Hk Hm Hop.
  destruct (try_call_run self m kw k (fun e => (a ++ host self ++ r e)%string) Hk)
    as [Ht Ho].
  cbv zeta in Ht, Ho. unfold well_behaved. rewrite Ht. split; [discriminate|]. split.
  - intros e [<- | []]. exact Hm.
  - intros op Hc. destruct Ho as [[v Hv] | [e He]].
    + rewrite Hv. split; [discriminate | discriminate].
    + rewrite He. split; [discriminate|]. intros x Hx. inversion Hx; subst x.
      eexists. split; [reflexivity|]. split.
      * apply contains_mid.
      * apply contains_left. now apply Hop.
Qed.

Lemma shared_well_behaved (self : Info) (c : Category) (op : SharedOp) (args : list Value) :
  shared_owner op = c -> operation c = None ->
  well_behaved self c (call_shared self op args).
Proof.
  intros Ho Hn. unfold well_behaved, call_shared, shared. simpl.
  split; [discriminate|]. split.
  - intros e [<- | []]. exact Ho.
  - intros o Hc. congruence.
Qed.

Ltac pure_step :=
  let x := fresh "x" in
  intro x; first [ exists (Ok x); reflexivity | eexists; reflexivity ].

Ltac one_call :=
  apply one_call_well_behaved;
  [ pure_step
  | reflexivity
  | let op := fresh "op" in let H := fresh "H" in
    intros op H; inversion H; subst op; vm_compute; reflexivity ].

Ltac attributes_stop e :=
  split; [discriminate|]; split;
  [ let ev := fresh "ev" in let H := fresh "H" in
    intros ev H; simpl in H;
    repeat (destruct H as [H | H]; [subst ev; reflexivity|]); contradiction
  | let op := fresh "op" in let H := fresh "H" in
    intros op H; inversion H; subst op; split; [discriminate|];
    let x := fresh "x" in let Hx := fresh "Hx" in
    intros x Hx; inversion Hx; subst x; eexists; split; [reflexivity|]; split;
    [ apply contains_mid | apply contains_left; vm_compute; reflexivity ] ].

Lemma get_attributes_list_well_behaved (self : Info) :
  well_behaved self Attributes (get_attributes_list self).
Proof.
  unfold well_behaved, get_attributes_list, call, remote.
  destruct (respond (api self) cluster_api_get_cluster_config []) as [v1|e1]; simpl;
    [|attributes_stop e1].
  destruct (respond (api self) cluster_api_get_cluster_external_ips []) as [v2|e2]; simpl;
    [|attributes_stop e2].
  destruct (join_value "," v2) as [v3|e3]; simpl; [|attributes_stop e3].
  destruct (respond (api self) cluster_api_get_cluster_identity []) as [v4|e4]; simpl;
    [|attributes_stop e4].
  destruct (respond (api self) cluster_api_get_cluster_owner []) as [v5|e5]; simpl;
    [|attributes_stop e5].
  destruct (respond (api self) cluster_api_get_cluster_version []) as [v6|e6]; simpl;
    [|attributes_stop e6].
  split; [discriminate|]. split.
  - intros ev H. repeat (destruct H as [H | H]; [subst ev; reflexivity|]). contradiction.
  - intros op H. split; [discriminate | discriminate].
Qed.

Lemma handler_well_behaved (self : Info) (c : Category) :
  well_behaved self c (handler self c).
Proof.
  destruct c; unfold handler;
    try (apply shared_well_behaved; reflexivity).
  - apply get_attributes_list_well_behaved.
  - unfold get_access_zones_list. one_call.
  - unfold get_nodes_list. one_call.
  - unfold get_providers_list. one_call.
  - unfold get_users_list. one_call.
  - unfold get_groups_list. one_call.
  - unfold get_smb_shares_list. one_call.
  - unfold get_clients_list. one_call.
  - unfold get_nfs_exports_list. one_call.
  - unfold get_nfs_aliases_list. one_call.
  - unfold get_synciq_reports. one_call.
  - unfold get_synciq_target_reports. one_call.
  - unfold get_syniq_policies_list. one_call.
  - unfold get_synciq_target_cluster_certificates_list. one_call.
  - unfold get_synciq_performance_rules. one_call.
  - unfold get_network_groupnets. one_call.
  - unfold get_network_pools.
    destruct (truthy (none_or_bool (include_all_access_zones (module_params self))));
      one_call.
  - unfold get_network_rules. one_call.
  - unfold get_network_interfaces. one_call.
  - unfold get_network_subnets. one_call.
  - unfold get_node_pools. one_call.
  - unfold get_storagepool_tiers. one_call.
  - unfold get_smb_files. one_call.
  - unfold get_user_mapping_rules. one_call.
  - unfold get_ldap_providers. one_call.
  - unfold get_zone_settings. one_call.
  - unfold get_nfs_global_settings. one_call.
Qed.

(** A handler of this file whose SDK calls raise ends in [fail_json]. *)
Lemma fetch_error_fails (self : Info) (c : Category) (op : string) :
  operation c = Some op ->
  (forall m kw, api_owner m = c -> exists e, respond (api self) m kw = Raise e) ->
  exists msg, outcome (handler self c) = Exited (FailJson msg).
Proof.
  intros Hop Hraise.
  destruct c; try discriminate Hop; unfold handler;
    match goal with
    | |- exists _, outcome (?h _) = _ => unfold h
    | |- exists _, outcome (?h _ _) = _ => unfold h
    | |- exists _, outcome (?h _ _ _) = _ => unfold h
    end;
    unfold call, remote;
    try destruct (truthy (none_or_bool (include_all_access_zones (module_params self))));
    match goal with
    | |- context [respond (api self) ?m ?kw] =>
        let e := fresh "e" in let E := fresh "E" in
        destruct (Hraise m kw eq_refl) as [e E]; rewrite E
    end;
    simpl; eexists; reflexivity.
Qed.

End HandlerFacts.

(* ================================================================== *)
(** * Facts about the dispatch *)
(* ================================================================== *)

Section DispatchFacts.

Local Open Scope list_scope.
#[local] Arguments String.append _ _ : simpl never.

Lemma bind_ret_l {A B} (a : A) (k : A -> M B) : bind (ret a) k = k a.
Proof. unfold bind, ret. now destruct (k a). Qed.

Lemma bind_ext {A B} (m : M A) (k1 k2 : A -> M B) :
  (forall a, k1 a = k2 a) -> bind m k1 = bind m k2.
Proof. intro H. destruct m as [t [a | e | x]]; simpl; [now rewrite H | reflexivity..]. Qed.

Lemma dispatch_cons {A} (self : Info) (c : Category) (rest : list Category)
      (locals : Category -> Value) (k : (Category -> Value) -> M A) :
  dispatch self (c :: rest) locals k =
  bind (step self c) (fun v => dispatch self rest (assign c v locals) k).
Proof. reflexivity. Qed.

(** When every [if] of [cs] returns, the rest of the method runs on the
    updated locals, after the events of [cs]. *)
Lemma dispatch_ok {A} (self : Info) (cs : list Category)
      (locals : Category -> Value) (k : (Category -> Value) -> M A) :
  (forall c, In c cs -> exists v, outcome (step self c) = Return v) ->
  dispatch self cs locals k = prepend (traces self cs) (k (locals_after self cs locals)).
Proof.
  revert locals. induction cs as [|c rest IH]; intros locals Hok.
  - simpl. unfold prepend. now destruct (k locals).
  - rewrite dispatch_cons. destruct (Hok c (or_introl eq_refl)) as [v Hv].
    simpl. unfold step_value. rewrite Hv.
    destruct (step self c) as [t o] eqn:E. simpl in Hv. subst o. simpl.
    rewrite IH by (intros d Hd; apply Hok; now right).
    unfold prepend. simpl. now rewrite app_assoc.
Qed.

(** The first [if] that ends the process ends the method, with the events
    issued so far. *)
Lemma dispatch_stop {A} (self : Info) (pre : list Category) (c : Category)
      (post : list Category) (locals : Category -> Value)
      (k : (Category -> Value) -> M A) (x : ExitInfo) :
  (forall d, In d pre -> exists v, outcome (step self d) = Return v) ->
  outcome (step self c) = Exited x ->
  dispatch self (pre ++ c :: post) locals k
  = (traces self pre ++ trace (step self c), Exited x).
Proof.
  revert locals. induction pre as [|d pre IH]; intros locals Hok Hx.
  - change ([] ++ c :: post) with (c :: post). rewrite dispatch_cons.
    destruct (step self c) as [t o]. simpl in Hx. subst o. reflexivity.
  - change ((d :: pre) ++ c :: post) with (d :: (pre ++ c :: post)).
    rewrite dispatch_cons. destruct (Hok d (or_introl eq_refl)) as [v Hv].
    simpl. destruct (step self d) as [t o]. simpl in Hv. subst o. simpl.
    rewrite IH; [|intros d' Hd'; apply Hok; now right | exact Hx].
    now rewrite app_assoc.
Qed.

Lemma step_trace_owned (self : Info) (c : Category) (e : Event) :
  In e (trace (step self c)) -> requested self c = true /\ owner e = c.
Proof.
  unfold step. destruct (requested self c); [|contradiction].
  intro H. split; [reflexivity|].
  now apply (proj1 (proj2 (handler_well_behaved self c))).
Qed.

Lemma traces_owned (self : Info) (cs : list Category) (e : Event) :
  In e (traces self cs) ->
  In (owner e) cs /\ requested self (owner e) = true.
Proof.
  induction cs as [|c rest IH]; simpl; [contradiction|].
  intro H. apply in_app_or in H as [H | H].
  - apply step_trace_owned in H as [Hr Ho]. subst c. split; [now left | exact Hr].
  - destruct (IH H) as [Hin Hr]. split; [now right | exact Hr].
Qed.

(** Whatever happens, every event of the dispatch belongs to a category
    of [cs] whose [if] fired. *)
Lemma dispatch_trace_owned {A} (self : Info) (cs : list Category)
      (locals : Category -> Value) (k : (Category -> Value) -> M A) (e : Event) :
  (forall l, trace (k l) = []) ->
  In e (trace (dispatch self cs locals k)) ->
  In (owner e) cs /\ requested self (owner e) = true.
Proof.
  intro Hk. revert locals. induction cs as [|c rest IH]; intros locals H.
  - simpl in H. rewrite Hk in H. contradiction.
  - rewrite dispatch_cons in H.
    destruct (step self c) as [t o] eqn:E.
    assert (forall ev, In ev t -> requested self c = true /\ owner ev = c) as Ht.
    { intros ev Hev. apply step_trace_owned. now rewrite E. }
    destruct o as [v | ex | x]; simpl in H.
    + destruct (dispatch self rest (assign c v locals) k) as [t' o'] eqn:D.
      simpl in H. apply in_app_or in H as [H | H].
      * destruct (Ht e H) as [Hr Ho]. subst c. split; [now left | exact Hr].
      * destruct (IH (assign c v locals)) as [Hin Hr]; [now rewrite D|].
        split; [now right | exact Hr].
    + destruct (Ht e H) as [Hr Ho]. subst c. split; [now left | exact Hr].
    + destruct (Ht e H) as [Hr Ho]. subst c. split; [now left | exact Hr].
Qed.

Lemma Category_eqb_refl (c : Category) : Category_eqb c c = true.
Proof. unfold Category_eqb. now destruct (Category_eq_dec c c). Qed.




Lemma all_categories (c : Category) : In c dispatch_order.
Proof.
  assert (existsb (Category_eqb c) dispatch_order = true) as H
      by (destruct c; reflexivity).
  apply existsb_exists in H as [d [Hd E]].
  unfold Category_eqb in E. destruct (Category_eq_dec c d); [now subst | discriminate].
Qed.

Lemma distinct_NoDup (cs : list Category) : distinct cs = true -> NoDup cs.
Proof.
  induction cs as [|c rest IH]; simpl; intro H; [constructor|].
  apply andb_true_iff in H as [Hc Hr]. constructor; [|now apply IH].
  intro Hin. apply negb_true_iff in Hc.
  assert (existsb (Category_eqb c) rest = true) as E.
  { apply existsb_exists. exists c. split; [exact Hin | apply Category_eqb_refl]. }
  congruence.
Qed.

Lemma dispatch_order_NoDup : NoDup dispatch_order.
Proof. apply distinct_NoDup. vm_compute. reflexivity. Qed.



(** The requested test on a validated subset. *)
Lemma requested_valid (self : Info) (c : Category) :
  valid_subset (gather_subset (module_params self)) ->
  requested self c = true <-> In (gather_id c) (gather_subset (module_params self)).
Proof.
  intro Hv. unfold requested, subset_text, subset_value.
  apply contains_valid; [exact Hv | apply gather_id_choice].
Qed.

Lemma guard_passes (self : Info) :
  gather_subset (module_params self) <> [] ->
  perform_by_table self =
  dispatch self dispatch_order default_value
           (fun locals => exit_json (build_result locals)).
Proof.
  intro Hne. unfold perform_by_table.
  assert (negb (truthy (subset_value (module_params self))) = false) as ->.
  { unfold subset_value.
    destruct (gather_subset (module_params self)); [contradiction | reflexivity]. }
  exact (bind_ret_l tt (fun _ => dispatch self dispatch_order default_value
                                    (fun locals => exit_json (build_result locals)))).
Qed.

End DispatchFacts.

(* ================================================================== *)
(** * The dispatcher: membership test, report shape, frame *)
(* ================================================================== *)

Section DispatcherClaims.

Local Open Scope list_scope.
#[local] Arguments String.append _ _ : simpl never.

Lemma distinct_strings_NoDup (l : list string) : distinct_strings l = true -> NoDup l.
Proof.
  induction l as [|s rest IH]; simpl; intro H; [constructor|].
  apply andb_true_iff in H as [Hs Hr]. constructor; [|now apply IH].
  intro Hin. apply mem_string_In in Hin. apply negb_true_iff in Hs. congruence.
Qed.


Lemma default_value_empty (c : Category) :
  default_value c = VList [] \/ default_value c = VDict [].
Proof. destruct c; simpl; auto. Qed.

(** C9: on a list of valid identifiers, the test [c in str(subset)] used by
    the dispatcher holds exactly when [c] is an element of the list, and no
    valid identifier occurs inside another one. *)
Theorem substring_test_is_membership (l : list string) (c : string) :
  valid_subset l -> In c gather_subset_choices ->
  (contains c (py_str (VList (map VStr l))) = true <-> In c l) /\
  (forall d, In d gather_subset_choices -> contains c d = true -> c = d).
Proof.
  intros Hv Hc. split.
  - now apply contains_valid.
  - intros d Hd. now apply choice_exact.
Qed.




(** C8: with a valid subset, no event of the run belongs to a category that
    was not requested; a handler that runs always leaves an event of its
    own category, so the events record exactly the handlers invoked. *)
Theorem unrequested_category_is_never_fetched (self : Info) (c : Category) :
  valid_subset (gather_subset (module_params self)) ->
  ~ In (gather_id c) (gather_subset (module_params self)) ->
  (forall e, In e (trace (perform_module_operation self)) -> owner e <> c) /\
  trace (handler self c) <> [] /\
  (forall e, In e (trace (handler self c)) -> owner e = c).
Proof.
  intros Hv Hn. split.
  - intros e He Ho. apply Hn. apply requested_valid; [exact Hv|]. subst c.
    rewrite perform_module_operation_table in He. unfold perform_by_table in He.
    destruct (negb (truthy (subset_value (module_params self)))).
    + simpl in He. contradiction.
    + rewrite bind_ret_l in He.
      now apply dispatch_trace_owned in He.
  - destruct (handler_well_behaved self c) as [H1 [H2 _]]. now split.
Qed.

Lemma handler_with_subset (self : Info) (l : list string) (c : Category) :
  handler (with_subset self l) c = handler self c.
Proof. destruct c; reflexivity. Qed.

Lemma dispatch_ext {A} (s1 s2 : Info) (cs : list Category)
      (locals : Category -> Value) (k : (Category -> Value) -> M A) :
  (forall c, step s1 c = step s2 c) ->
  dispatch s1 cs locals k = dispatch s2 cs locals k.
Proof.
  intro H. revert locals. induction cs as [|c rest IH]; intro locals; [reflexivity|].
  rewrite !dispatch_cons, H. apply bind_ext. intro v. apply IH.
Qed.

(** C7: two listings of the same valid categories, in any order and with
    any repetition, give the same run: the same events in the same order
    and the same outcome. *)
Theorem listing_order_is_irrelevant (self : Info) (l1 l2 : list string) :
  valid_subset l1 -> valid_subset l2 ->
  (forall s, In s l1 <-> In s l2) ->
  trace (perform_module_operation (with_subset self l1))
  = trace (perform_module_operation (with_subset self l2)) /\
  outcome (perform_module_operation (with_subset self l1))
  = outcome (perform_module_operation (with_subset self l2)).
Proof.
  intros H1 H2 Heq.
  assert (perform_module_operation (with_subset self l1)
          = perform_module_operation (with_subset self l2)) as E.
  { rewrite (perform_module_operation_table (with_subset self l1)),
            (perform_module_operation_table (with_subset self l2)).
    unfold perform_by_table.
    assert (truthy (subset_value (module_params (with_subset self l1)))
            = truthy (subset_value (module_params (with_subset self l2)))) as ->.
    { unfold subset_value. simpl. destruct l1 as [|a l1], l2 as [|b l2];
        try reflexivity.
      - exfalso. apply (proj2 (Heq b)). now left.
      - exfalso. apply (proj1 (Heq a)). now left. }
    apply bind_ext. intros _. apply dispatch_ext. intro c. unfold step.
    rewrite !handler_with_subset.
    assert (requested (with_subset self l1) c = requested (with_subset self l2) c) as ->.
    { pose proof (requested_valid (with_subset self l1) c H1) as R1.
      pose proof (requested_valid (with_subset self l2) c H2) as R2.
      simpl in R1, R2.
      destruct (requested (with_subset self l1) c), (requested (with_subset self l2) c);
        try reflexivity.
      - assert (false = true) by (apply R2, Heq, R1; reflexivity). discriminate.
      - assert (false = true) by (apply R1, Heq, R2; reflexivity). discriminate. }
    reflexivity. }
  now rewrite E.
Qed.

(** C2: when the handler of a requested category [C] ends in [fail_json]
    and every requested category before it returned, the module ends with
    that one failure, no report is produced, no event belongs to a category
    after [C], and the message of a handler of this file names its
    operation and the cluster host. *)
Theorem first_failure_aborts (self : Info) (pre post : list Category) (C : Category)
        (msg : string) :
  valid_subset (gather_subset (module_params self)) ->
  dispatch_order = pre ++ C :: post ->
  In (gather_id C) (gather_subset (module_params self)) ->
  (forall D, In D pre -> In (gather_id D) (gather_subset (module_params self)) ->
             exists v, outcome (handler self D) = Return v) ->
  outcome (handler self C) = Exited (FailJson msg) ->
  outcome (perform_module_operation self) = Exited (FailJson msg) /\
  (forall report, outcome (perform_module_operation self) <> Exited (ExitJson report)) /\
  (forall e D, In e (trace (perform_module_operation self)) -> In D post -> owner e <> D) /\
  (forall op, operation C = Some op ->
              contains (host self) msg = true /\ contains op msg = true).
Proof.
  intros Hv Hord HC Hpre Hfail.
  assert (gather_subset (module_params self) <> []) as Hne.
  { intro E. rewrite E in HC. contradiction. }
  assert (forall D, In D pre -> exists v, outcome (step self D) = Return v) as Hstep.
  { intros D HD. unfold step. destruct (requested self D) eqn:R.
    - apply Hpre; [exact HD | now apply requested_valid].
    - now exists (default_value D). }
  assert (outcome (step self C) = Exited (FailJson msg)) as HstepC.
  { unfold step. now rewrite (proj2 (requested_valid self C Hv) HC). }
  assert (perform_module_operation self
          = (traces self pre ++ trace (step self C), Exited (FailJson msg))) as E.
  { rewrite perform_module_operation_table, (guard_passes self Hne), Hord.
    now apply dispatch_stop. }
  rewrite E. simpl. split; [reflexivity|]. split; [discriminate|]. split.
  - intros e D He HD Ho.
    assert (In (owner e) (pre ++ [C])) as Hin.
    { apply in_app_or in He as [He | He]; apply in_or_app.
      - left. now apply traces_owned in He.
      - right. apply step_trace_owned in He as [_ <-]. now left. }
    pose proof dispatch_order_NoDup as ND. rewrite Hord in ND.
    change (C :: post) with ([C] ++ post) in ND. rewrite app_assoc in ND.
    rewrite Ho in Hin. revert Hin HD. clear -ND.
    generalize (pre ++ [C]) as front, ND. intros front ND' Hin HD.
    induction front as [|f front IH]; [contradiction|].
    simpl in ND'. inversion ND' as [|? ? Hnot Hrest]; subst.
    destruct Hin as [-> | Hin].
    + apply Hnot. apply in_or_app. now right.
    + now apply IH.
  - intros op Hop.
    destruct (proj2 (proj2 (handler_well_behaved self C)) op Hop) as [_ Hx].
    destruct (Hx _ Hfail) as [m [Em [Hh Ho]]]. inversion Em; subst m. now split.
Qed.

(** C3: a task that gives both [access_zone] and
    [include_all_access_zones: true] is rejected by the argument validation;
    the module fails before any remote call. *)
Theorem zone_and_all_zones_rejected (cl : Client) (args : TaskArgs) (z : string) :
  arg_access_zone args = Some z ->
  arg_include_all_access_zones args = Some true ->
  trace (main cl args) = [] /\
  outcome (main cl args) =
  Exited (FailJson
            "parameters are mutually exclusive: access_zone|include_all_access_zones").
Proof.
  intros Hz Ha. unfold main, Info_init, AnsibleModule, mutually_exclusive_args.
  assert (check_mutually_exclusive [["access_zone"; "include_all_access_zones"]%string] args
          = Some "parameters are mutually exclusive: access_zone|include_all_access_zones"%string)
    as ->.
  { unfold check_mutually_exclusive, supplied. simpl filter. rewrite Hz, Ha. reflexivity. }
  split; reflexivity.
Qed.

End DispatcherClaims.

(* ================================================================== *)
(** * Normalisation done by the handlers *)
(* ================================================================== *)

Section Normalisation.

Local Open Scope list_scope.
#[local] Arguments String.append _ _ : simpl never.

Lemma eq_str_true (v : Value) (lit : string) : eq_str v lit = true <-> v = VStr lit.
Proof.
  destruct v; simpl; try (split; [discriminate | intro H; discriminate H]).
  rewrite String.eqb_eq. split; [now intros -> | now intros [= ->]].
Qed.

(** ** The unit of a performance rule *)

Lemma limit_unit_of_type (limit : Value) (t : RuleType) :
  get_sync_rule_limit_unit limit (VStr (type_name t))
  = Ok (VStr (py_str limit ++ spec_unit t)%string).
Proof. destruct t; reflexivity. Qed.

Lemma limit_unit_cases (limit ty : Value) :
  (exists t, ty = VStr (type_name t)) \/
  ((forall t, ty <> VStr (type_name t)) /\
   get_sync_rule_limit_unit limit ty = Raise (UnboundLocalError "unit")).
Proof.
  unfold get_sync_rule_limit_unit.
  destruct (eq_str ty "bandwidth") eqn:E1.
  { left. exists Bandwidth. now apply eq_str_true. }
  destruct (eq_str ty "cpu") eqn:E2.
  { left. exists Cpu. now apply eq_str_true. }
  destruct (eq_str ty "file_count") eqn:E3.
  { left. exists FileCount. now apply eq_str_true. }
  destruct (eq_str ty "worker") eqn:E4.
  { left. exists Worker. now apply eq_str_true. }
  right. split; [|reflexivity].
  intros t Ht. apply eq_str_true in Ht. destruct t; simpl in Ht; congruence.
Qed.

(** ** Loops that append one item per element *)

Lemma for_each_collect {A} (body : A -> Result Value) (xs : list A) (ys acc : list Value) :
  Forall2 (fun x y => body x = Ok y) xs ys ->
  for_each xs (fun item acc => let* y := body item in Ok (acc ++ [y])) acc
  = Ok (acc ++ ys).
Proof.
  intro H. revert acc. induction H as [|x y xs ys Hxy _ IH]; intro acc; simpl.
  - now rewrite app_nil_r.
  - rewrite Hxy. simpl. rewrite IH, <- app_assoc. reflexivity.
Qed.

Lemma collect_list (body : Value -> Result Value) (xs ys : list Value) :
  Forall2 (fun x y => body x = Ok y) xs ys ->
  collect (VList xs) body = Ok ys.
Proof. intro H. unfold collect. simpl. now rewrite (for_each_collect body xs ys []). Qed.

(** ** Rows of the performance-rule listing *)

Lemma performance_rule_dict_row (rule : Value) (row : RuleRow) :
  describes rule row -> performance_rule_dict rule = Ok (normalized_rule row).
Proof.
  intros (Hi & Hs & He & Ht & Hl). unfold performance_rule_dict.
  rewrite Hi, Hs, He, Ht, Hl. simpl. rewrite limit_unit_of_type. reflexivity.
Qed.

(** C4: the limit of a performance rule is the decimal text of the number
    followed by the unit of its type (kb/s, %, files/sec, %), both in
    [get_sync_rule_limit_unit] and in the list the handler returns. *)
Theorem limit_is_number_then_unit (self : Info) (details : Value)
        (rules : list Value) (rows : list RuleRow) :
  respond (api self) synciq_api_list_sync_rules [] = Ok details ->
  getitem details "rules" = Ok (VList rules) ->
  Forall2 describes rules rows ->
  outcome (get_synciq_performance_rules self) = Return (VList (map normalized_rule rows)) /\
  (forall (z : Z) (t : RuleType),
     get_sync_rule_limit_unit (VInt z) (VStr (type_name t))
     = Ok (VStr (str_of_Z z ++ spec_unit t)%string)) /\
  get_sync_rule_limit_unit (VInt 10) (VStr "bandwidth") = Ok (VStr "10kb/s") /\
  get_sync_rule_limit_unit (VInt 5) (VStr "cpu") = Ok (VStr "5%") /\
  get_sync_rule_limit_unit (VInt 3) (VStr "file_count") = Ok (VStr "3files/sec") /\
  get_sync_rule_limit_unit (VInt 7) (VStr "worker") = Ok (VStr "7%").
Proof.
  intros Hr Hd Hrows. split; [|split; [|repeat split]].
  - unfold get_synciq_performance_rules, call, remote. rewrite Hr. simpl.
    rewrite Hd. simpl.
    rewrite (collect_list performance_rule_dict rules (map normalized_rule rows)).
    + reflexivity.
    + clear -Hrows. induction Hrows as [|rule row rules rows H _ IH]; simpl.
      * constructor.
      * constructor; [now apply performance_rule_dict_row | exact IH].
  - intros z t. apply (limit_unit_of_type (VInt z) t).
Qed.

(** C10: [get_sync_rule_limit_unit] returns exactly for the four rule types;
    for any other type it raises on the unassigned [unit], whatever the
    limit, and so does the dict of a rule with such a type. *)
Theorem limit_unit_defined_only_on_rule_types (limit ty : Value) :
  ((exists v, get_sync_rule_limit_unit limit ty = Ok v) <->
   (ty = VStr "bandwidth" \/ ty = VStr "cpu" \/ ty = VStr "file_count"
    \/ ty = VStr "worker")) /\
  (~ (ty = VStr "bandwidth" \/ ty = VStr "cpu" \/ ty = VStr "file_count"
      \/ ty = VStr "worker") ->
   get_sync_rule_limit_unit limit ty = Raise (UnboundLocalError "unit") /\
   forall id schedule enabled,
     performance_rule_dict
       (VDict [("id", id); ("schedule", schedule); ("enabled", enabled);
               ("type", ty); ("limit", limit)])
     = Raise (UnboundLocalError "unit")).
Proof.
  split.
  - split.
    + intros [v Hv]. destruct (limit_unit_cases limit ty) as [[t ->] | [_ Hr]].
      * destruct t; simpl; auto.
      * congruence.
    + intros [-> | [-> | [-> | ->]]]; eexists; reflexivity.
  - intro Hn. destruct (limit_unit_cases limit ty) as [[t ->] | [_ Hr]].
    + exfalso. apply Hn. destruct t; simpl; auto.
    + split; [exact Hr|]. intros id schedule enabled.
      unfold performance_rule_dict. simpl. now rewrite Hr.
Qed.

(** ** User-mapping rules *)

Lemma lookup_dict_set_same (k : string) (x : Value) (d : list (string * Value)) :
  lookup k (dict_set k x d) = Some x.
Proof.
  induction d as [|[k' y] d IH]; simpl.
  - now rewrite String.eqb_refl.
  - destruct (String.eqb k k') eqn:E; simpl; rewrite E; [reflexivity | exact IH].
Qed.

Lemma lookup_dict_set_other (k k' : string) (x : Value) (d : list (string * Value)) :
  k' <> k -> lookup k' (dict_set k x d) = lookup k' d.
Proof.
  intro Hne. induction d as [|[k0 y] d IH]; simpl.
  - now rewrite (proj2 (String.eqb_neq k' k) Hne).
  - destruct (String.eqb k k0) eqn:E; simpl.
    + apply String.eqb_eq in E. subst k0.
      now rewrite (proj2 (String.eqb_neq k' k) Hne).
    + now rewrite IH.
Qed.

Lemma annotate_loop (ds : list (list (string * Value))) (start : nat) (acc : list Value) :
  for_each (combine (map Z.of_nat (seq start (List.length ds))) (map VDict ds))
           (fun '(count, rule) acc =>
              let* rule' := setitem rule "apply_order" (VInt (count + 1)) in
              Ok (acc ++ [rule'])) acc
  = Ok (acc ++ annotate start ds).
Proof.
  revert start acc. induction ds as [|d ds IH]; intros start acc; simpl.
  - now rewrite app_nil_r.
  - rewrite IH, <- app_assoc. reflexivity.
Qed.

Lemma apply_order_loop_dicts (ds : list (list (string * Value))) :
  apply_order_loop (map VDict ds) = Ok (annotate 0 ds).
Proof.
  unfold apply_order_loop, enumerate. rewrite length_map.
  apply (annotate_loop ds 0 []).
Qed.

Lemma annotate_length (start : nat) (ds : list (list (string * Value))) :
  List.length (annotate start ds) = List.length ds.
Proof. revert start. induction ds as [|d ds IH]; intro start; simpl; [|rewrite IH]; reflexivity. Qed.

Lemma annotate_nth (ds : list (list (string * Value))) (start i : nat) :
  nth_error (annotate start ds) i
  = option_map (fun d => VDict (dict_set "apply_order" (VInt (Z.of_nat (start + i) + 1)) d))
               (nth_error ds i).
Proof.
  revert start i. induction ds as [|d ds IH]; intros start [|i]; simpl; try reflexivity.
  - now rewrite Nat.add_0_r.
  - rewrite IH. now replace (S start + i)%nat with (start + S i)%nat by lia.
Qed.

Lemma annotate_orders (ds : list (list (string * Value))) (start : nat) :
  map (fun r => getitem r "apply_order") (annotate start ds)
  = map (fun i => Ok (VInt (Z.of_nat i))) (seq (S start) (List.length ds)).
Proof.
  revert start. induction ds as [|d ds IH]; intro start; simpl; [reflexivity|].
  rewrite lookup_dict_set_same, IH. do 3 f_equal. lia.
Qed.

(** C5: the handler returns the user-mapping rules in the order received,
    the i-th one (from 1) with [apply_order = i] and its other fields
    untouched, so that the [apply_order] values read 1, 2, ..., n. *)
Theorem apply_order_is_position (self : Info) (zone details outer : Value)
        (ds : list (list (string * Value))) :
  respond (api self) auth_api_get_mapping_users_rules [("zone", zone)] = Ok details ->
  getitem details "rules" = Ok outer ->
  getitem outer "rules" = Ok (VList (map VDict ds)) ->
  exists out,
    outcome (get_user_mapping_rules self zone) = Return (VList out) /\
    List.length out = List.length ds /\
    (forall i d, nth_error ds i = Some d ->
       nth_error out i
       = Some (VDict (dict_set "apply_order" (VInt (Z.of_nat i + 1)) d))) /\
    (forall i d r k, nth_error ds i = Some d -> nth_error out i = Some r ->
       k <> "apply_order"%string -> getitem r k = getitem (VDict d) k) /\
    map (fun r => getitem r "apply_order") out
    = map (fun i => Ok (VInt (Z.of_nat i))) (seq 1 (List.length ds)).
Proof.
  intros Hr Ho Hi. exists (annotate 0 ds). split; [|split; [|split; [|split]]].
  - unfold get_user_mapping_rules, call, remote. rewrite Hr. simpl.
    rewrite Ho. simpl. rewrite Hi. simpl. now rewrite apply_order_loop_dicts.
  - apply annotate_length.
  - intros i d Hd. rewrite annotate_nth, Hd. reflexivity.
  - intros i d r k Hd Hout Hk. rewrite annotate_nth, Hd in Hout. simpl in Hout.
    inversion Hout; subst r. simpl. now rewrite lookup_dict_set_other.
  - apply annotate_orders.
Qed.

End Normalisation.

(* ================================================================== *)
(** * Responses without their sub-list *)
(* ================================================================== *)

Section AbsentSublist.

Local Open Scope list_scope.
#[local] Arguments String.append _ _ : simpl never.

(** [get_nfs_aliases_list] hands back the [None] it received. *)
Lemma absent_sublist_not_always_default : ~ absent_sublist_gives_default.
Proof.
  intro H.
  specialize (H aliases_none NfsAliases protocol_api_list_nfs_aliases "aliases"%string
                (VDict [("aliases", VNone)]) eq_refl (fun _ => eq_refl) eq_refl).
  vm_compute in H. discriminate H.
Qed.

(** A response without the key at all ends in the handler's failure. *)
Example smb_shares_without_key :
  outcome (get_smb_shares_list (sample (fun _ _ => Ok (VDict [])) ["smb_shares"%string])
                               (VStr "System"))
  = Exited (FailJson
      "Get smb_shares list for PowerScale cluster: 10.0.0.1 failed witherror: shares").
Proof. vm_compute. reflexivity. Qed.

(** A performance-rule listing whose [rules] is [None] makes the loop raise. *)
Example performance_rules_none :
  outcome (get_synciq_performance_rules
             (sample (fun _ _ => Ok (VDict [("rules", VNone)]))
                     ["synciq_performance_rules"%string]))
  = Exited (FailJson
      "Get SyncIQ performance rules list for PowerScale cluster: 10.0.0.1 failed witherror: object is not iterable").
Proof. vm_compute. reflexivity. Qed.

Ltac run_handler H Hg :=
  unfold handler;
  match goal with
  | |- outcome (?h _) = _ => unfold h
  | |- outcome (?h _ _) = _ => unfold h
  | |- outcome (?h _ _ _) = _ => unfold h
  end;
  unfold call, remote; try rewrite !H; simpl; rewrite Hg; simpl.

(** C6 (amended): when the field that should hold the sub-list is [None]
    or empty, a handler that guards its loop returns the empty list, which
    is its category's default, and a handler that passes the field through
    returns it as it came. *)
Theorem absent_sublist_guarded_or_passed (self : Info) (c : Category)
        (m : ApiMethod) (f : string) (details sub : Value) :
  sublist_field c = Some (m, f) ->
  (forall kw, respond (api self) m kw = Ok details) ->
  getitem details f = Ok sub ->
  truthy sub = false ->
  (guards_sublist c = true ->
   outcome (handler self c) = Return (VList []) /\ default_value c = VList []) /\
  (passes_through c = true -> outcome (handler self c) = Return sub).
Proof.
  intros Hf Hr Hg Ht.
  destruct c; simpl in Hf; inversion Hf; subst m f; clear Hf;
    (split; intro Hc; try discriminate Hc; clear Hc).
  all: try (split; [|reflexivity]).
  all: try (run_handler Hr Hg; unfold collect_if_any; rewrite ?Ht; reflexivity).
  unfold handler, get_network_pools, call, remote.
  destruct (truthy (none_or_bool (include_all_access_zones (module_params self))));
    rewrite Hr; simpl; rewrite Hg; simpl; unfold collect_if_any; now rewrite Ht.
Qed.

End AbsentSublist.

(* ================================================================== *)
(** * Concrete runs *)
(* ================================================================== *)

Section ConcreteRuns.

Local Open Scope list_scope.

Lemma valid_subset_check (l : list string) :
  forallb (fun s => mem_string s gather_subset_choices) l = true -> valid_subset l.
Proof.
  intro H. apply Forall_forall. intros s Hs.
  rewrite forallb_forall in H. now apply mem_string_In, H.
Defined.

Lemma substring_test_is_membership_witness :
  valid_subset ["nodes"; "node_pools"]%string /\
  In "nodes"%string gather_subset_choices /\
  (contains "nodes" (py_str (VList (map VStr ["nodes"; "node_pools"]%string))) = true
   <-> In "nodes"%string ["nodes"; "node_pools"]%string).
Proof.
  assert (H1 : valid_subset ["nodes"; "node_pools"]%string)
    by (apply valid_subset_check; vm_compute; reflexivity).
  assert (H2 : In "nodes"%string gather_subset_choices).
  { apply mem_string_In. vm_compute. reflexivity. }
  exact (conj H1 (conj H2
           (proj1 (substring_test_is_membership ["nodes"; "node_pools"]%string
                     "nodes"%string H1 H2)))).
Defined.



Lemma unrequested_category_is_never_fetched_witness :
  valid_subset (gather_subset (module_params nodes_only)) /\
  ~ In (gather_id Users) (gather_subset (module_params nodes_only)) /\
  (forall e, In e (trace (perform_module_operation nodes_only)) -> owner e <> Users).
Proof.
  assert (H1 : valid_subset (gather_subset (module_params nodes_only)))
    by (apply valid_subset_check; vm_compute; reflexivity).
  assert (H2 : ~ In (gather_id Users) (gather_subset (module_params nodes_only))).
  { intros [H | []]. discriminate H. }
  exact (conj H1 (conj H2
           (proj1 (unrequested_category_is_never_fetched nodes_only Users H1 H2)))).
Defined.

Lemma listing_order_is_irrelevant_witness :
  valid_subset ["nodes"; "users"]%string /\
  valid_subset ["users"; "nodes"; "users"]%string /\
  (forall s, In s ["nodes"; "users"]%string <-> In s ["users"; "nodes"; "users"]%string) /\
  trace (perform_module_operation (with_subset nodes_only ["nodes"; "users"]%string))
  = trace (perform_module_operation
             (with_subset nodes_only ["users"; "nodes"; "users"]%string)) /\
  outcome (perform_module_operation (with_subset nodes_only ["nodes"; "users"]%string))
  = outcome (perform_module_operation
               (with_subset nodes_only ["users"; "nodes"; "users"]%string)).
Proof.
  assert (H1 : valid_subset ["nodes"; "users"]%string)
    by (apply valid_subset_check; vm_compute; reflexivity).
  assert (H2 : valid_subset ["users"; "nodes"; "users"]%string)
    by (apply valid_subset_check; vm_compute; reflexivity).
  assert (H3 : forall s, In s ["nodes"; "users"]%string
                         <-> In s ["users"; "nodes"; "users"]%string)
    by (intro s; simpl; tauto).
  exact (conj H1 (conj H2 (conj H3
           (listing_order_is_irrelevant nodes_only _ _ H1 H2 H3)))).
Defined.

Lemma first_failure_aborts_witness :
  valid_subset (gather_subset (module_params unreachable)) /\
  dispatch_order = [Attributes; AccessZones] ++ Nodes :: skipn 3 dispatch_order /\
  In (gather_id Nodes) (gather_subset (module_params unreachable)) /\
  outcome (handler unreachable Nodes)
  = Exited (FailJson
      "Get Nodes List for PowerScale cluster: 10.0.0.1 failed witherror: unreachable") /\
  outcome (perform_module_operation unreachable)
  = Exited (FailJson
      "Get Nodes List for PowerScale cluster: 10.0.0.1 failed witherror: unreachable") /\
  (forall e, In e (trace (perform_module_operation unreachable)) -> owner e <> Users).
Proof.
  assert (H1 : valid_subset (gather_subset (module_params unreachable)))
    by (apply valid_subset_check; vm_compute; reflexivity).
  assert (H2 : dispatch_order
               = [Attributes; AccessZones] ++ Nodes :: skipn 3 dispatch_order)
    by reflexivity.
  assert (H3 : In (gather_id Nodes) (gather_subset (module_params unreachable)))
    by (now left).
  assert (H4 : forall D, In D [Attributes; AccessZones] ->
                 In (gather_id D) (gather_subset (module_params unreachable)) ->
                 exists v, outcome (handler unreachable D) = Return v).
  { intros D [<- | [<- | []]] [H | [H | []]]; discriminate H. }
  assert (H5 : outcome (handler unreachable Nodes)
               = Exited (FailJson
                   "Get Nodes List for PowerScale cluster: 10.0.0.1 failed witherror: unreachable"))
    by (vm_compute; reflexivity).
  destruct (first_failure_aborts unreachable _ _ Nodes _ H1 H2 H3 H4 H5)
    as [Ho [_ [Hafter _]]].
  split; [exact H1|]. split; [exact H2|]. split; [exact H3|]. split; [exact H5|].
  split; [exact Ho|].
  intros e He. apply (Hafter e Users He). vm_compute. tauto.
Defined.

Lemma zone_and_all_zones_rejected_witness :
  arg_access_zone both_given = Some "zone1"%string /\
  arg_include_all_access_zones both_given = Some true /\
  trace (main (stub (fun _ _ => Ok VNone)) both_given) = [] /\
  outcome (main (stub (fun _ _ => Ok VNone)) both_given) =
  Exited (FailJson
            "parameters are mutually exclusive: access_zone|include_all_access_zones").
Proof.
  exact (conj eq_refl (conj eq_refl
           (zone_and_all_zones_rejected (stub (fun _ _ => Ok VNone)) both_given
              "zone1"%string eq_refl eq_refl))).
Defined.

Lemma limit_is_number_then_unit_witness :
  respond (api rules_listing) synciq_api_list_sync_rules []
  = Ok (VDict [("rules", VList [one_rule]); ("total", VInt 1)]) /\
  Forall2 describes [one_rule] [one_rule_row] /\
  outcome (get_synciq_performance_rules rules_listing)
  = Return (VList [VDict [("id", VStr "bw-0"); ("schedule", VNone);
                          ("enabled", VBool true); ("type", VStr "bandwidth");
                          ("limit", VStr "10kb/s")]]).
Proof.
  assert (H : Forall2 describes [one_rule] [one_rule_row]).
  { constructor; [|constructor]. repeat split. }
  exact (conj eq_refl (conj H
           (proj1 (limit_is_number_then_unit rules_listing _ [one_rule] [one_rule_row]
                     eq_refl eq_refl H)))).
Defined.

Lemma apply_order_is_position_witness :
  exists out,
    outcome (get_user_mapping_rules mapping_listing (VStr "System")) = Return (VList out) /\
    map (fun r => getitem r "apply_order") out = [Ok (VInt 1); Ok (VInt 2); Ok (VInt 3)] /\
    map (fun r => getitem r "operator") out
    = [Ok (VStr "append"); Ok (VStr "insert"); Ok (VStr "replace")].
Proof.
  destruct (apply_order_is_position mapping_listing (VStr "System") _ _ three_rules
              eq_refl eq_refl eq_refl) as [out [Ho [_ [Hn [_ Hm]]]]].
  exists out. split; [exact Ho|]. split; [exact Hm|].
  pose proof (Hn 0%nat _ eq_refl) as N0. pose proof (Hn 1%nat _ eq_refl) as N1.
  pose proof (Hn 2%nat _ eq_refl) as N2.
  assert (List.length out = 3%nat) as L.
  { apply (f_equal (@List.length _)) in Hm. now rewrite length_map in Hm. }
  destruct out as [|a [|b [|c [|d out]]]]; try discriminate L.
  simpl in N0, N1, N2. inversion N0; inversion N1; inversion N2; subst.
  reflexivity.
Defined.

Lemma absent_sublist_guarded_or_passed_witness :
  sublist_field SmbShares = Some (protocol_api_list_smb_shares, "shares"%string) /\
  truthy VNone = false /\
  outcome (handler shares_none SmbShares) = Return (VList []) /\
  outcome (handler aliases_none NfsAliases) = Return VNone.
Proof.
  split; [reflexivity|]. split; [reflexivity|]. split.
  - exact (proj1 (proj1 (absent_sublist_guarded_or_passed shares_none SmbShares _ _
                           (VDict [("shares", VNone)]) VNone
                           eq_refl (fun _ => eq_refl) eq_refl eq_refl) eq_refl)).
  - exact (proj2 (absent_sublist_guarded_or_passed aliases_none NfsAliases _ _
                    (VDict [("aliases", VNone)]) VNone
                    eq_refl (fun _ => eq_refl) eq_refl eq_refl) eq_refl).
Defined.

Lemma limit_unit_defined_only_on_rule_types_witness :
  get_sync_rule_limit_unit (VInt 4) (VStr "memory") = Raise (UnboundLocalError "unit").
Proof.
  apply (proj2 (limit_unit_defined_only_on_rule_types (VInt 4) (VStr "memory"))).
  intros [H | [H | [H | H]]]; discriminate H.
Defined.

(** The whole module on a task that asks for the nodes of an empty
    cluster: thirty-nine keys, [Nodes] filled, one remote call. *)
Example main_nodes_only :
  let run := main (stub (fun _ _ => Ok (VDict [("nodes", VList [])])))
                  {| arg_onefs_host := "10.0.0.1";
                     arg_include_all_access_zones := None;
                     arg_access_zone := None;
                     arg_scope := None;
                     arg_gather_subset := Some ["nodes"%string] |} in
  trace run = [Remote cluster_api_get_cluster_nodes []] /\
  exists report,
    outcome run = Exited (ExitJson report) /\
    List.length report = 39%nat /\
    lookup "Nodes" report = Some (VDict [("nodes", VList [])]) /\
    lookup "AccessZones" report = Some (VList []) /\
    lookup "SynciqTargetClusterCertificate" report = Some (VList []).
Proof. vm_compute. split; [reflexivity|]. eexists. repeat split. Qed.

(** An empty [gather_subset] is refused by the method itself. *)
Example main_empty_subset :
  main (stub (fun _ _ => Ok VNone))
       {| arg_onefs_host := "10.0.0.1";
          arg_include_all_access_zones := None;
          arg_access_zone := None;
          arg_scope := None;
          arg_gather_subset := Some [] |}
  = ([], Exited (FailJson "Please specify gather_subset")).
Proof. vm_compute. reflexivity. Qed.

(** The listing order does not matter, the dispatch order does: the users
    are fetched after the nodes whichever way they are listed. *)
Example users_then_nodes :
  trace (perform_module_operation
           (sample (fun _ _ => Ok (VDict [])) ["users"; "nodes"]%string))
  = [Remote cluster_api_get_cluster_nodes [];
     Remote auth_api_list_auth_users [("zone", VStr "System")]].
Proof. vm_compute. reflexivity. Qed.

End ConcreteRuns.

(* ================================================================== *)
(** * The module as a whole *)
(* ================================================================== *)

Section WholeModule.

Local Open Scope list_scope.
#[local] Arguments String.append _ _ : simpl never.

(** X1: with an empty [gather_subset] the method fails with its own
    message before any remote call. *)
Theorem empty_subset_is_refused (self : Info) :
  gather_subset (module_params self) = [] ->
  trace (perform_module_operation self) = [] /\
  outcome (perform_module_operation self)
  = Exited (FailJson "Please specify gather_subset").
Proof.
  intro H. rewrite perform_module_operation_table. unfold perform_by_table, subset_value.
  rewrite H. split; reflexivity.
Qed.

Lemma handler_no_raise (self : Info) (c : Category) :
  (forall op args e, shared_library (api self) op args <> Raised e) ->
  forall e, outcome (handler self c) <> Raised e.
Proof.
  intros Hs e. destruct (operation c) as [op|] eqn:Hop.
  - now apply (proj1 (proj2 (proj2 (handler_well_behaved self c)) op Hop)).
  - destruct c; try discriminate Hop; apply Hs.
Qed.

Lemma dispatch_exits {A} (self : Info) (cs : list Category)
      (locals : Category -> Value) (k : (Category -> Value) -> M A) :
  (forall c e, outcome (step self c) <> Raised e) ->
  (forall l, exists x, outcome (k l) = Exited x) ->
  exists x, outcome (dispatch self cs locals k) = Exited x.
Proof.
  intros Hs Hk. revert locals. induction cs as [|c rest IH]; intro locals.
  - apply Hk.
  - rewrite dispatch_cons. pose proof (Hs c) as Hc.
    destruct (step self c) as [t [v | e | x]]; simpl in *.
    + destruct (IH (assign c v locals)) as [x Hx].
      destruct (dispatch self rest (assign c v locals) k) as [t' o']. simpl in *.
      now exists x.
    + exfalso. now apply (Hc e).
    + now exists x.
Qed.

(** X2: as long as the shared library does not let an exception escape,
    the method never returns and never raises: every run ends in
    [exit_json] or [fail_json]. *)
Theorem module_always_exits (self : Info) :
  (forall op args e, shared_library (api self) op args <> Raised e) ->
  exists x, outcome (perform_module_operation self) = Exited x.
Proof.
  intro Hs. rewrite perform_module_operation_table. unfold perform_by_table.
  destruct (negb (truthy (subset_value (module_params self)))).
  - eexists. reflexivity.
  - rewrite bind_ret_l. apply dispatch_exits.
    + intros c e. unfold step. destruct (requested self c).
      * now apply handler_no_raise.
      * discriminate.
    + intro l. eexists. reflexivity.
Qed.

Lemma traces_flat_map (self : Info) (cs : list Category) :
  traces self cs
  = flat_map (fun c => if requested self c then trace (handler self c) else []) cs.
Proof.
  induction cs as [|c rest IH]; simpl; [reflexivity|].
  rewrite IH. unfold step. now destruct (requested self c).
Qed.

Lemma dispatch_trace_prefix {A} (self : Info) (cs : list Category)
      (locals : Category -> Value) (k : (Category -> Value) -> M A) :
  (forall l, trace (k l) = []) ->
  exists pre post, cs = pre ++ post /\
                   trace (dispatch self cs locals k) = traces self pre.
Proof.
  intro Hk. revert locals. induction cs as [|c rest IH]; intro locals.
  - exists [], []. split; [reflexivity | apply Hk].
  - rewrite dispatch_cons.
    destruct (step self c) as [t o] eqn:E. destruct o as [v | e | x]; simpl.
    + destruct (IH (assign c v locals)) as [pre [post [Hc Ht]]].
      destruct (dispatch self rest (assign c v locals) k) as [t' o'].
      simpl in *. exists (c :: pre), post. split; [now rewrite Hc|].
      simpl. now rewrite E, Ht.
    + exists [c], rest. split; [reflexivity|]. simpl. now rewrite E, app_nil_r.
    + exists [c], rest. split; [reflexivity|]. simpl. now rewrite E, app_nil_r.
Qed.

Lemma calls_of_traces (self : Info) (cs : list Category) :
  calls_of self cs = traces self cs.
Proof. unfold calls_of. now rewrite traces_flat_map. Qed.

Lemma dispatch_raise {A} (self : Info) (pre : list Category) (c : Category)
      (post : list Category) (locals : Category -> Value)
      (k : (Category -> Value) -> M A) (e : Exn) :
  (forall d, In d pre -> exists v, outcome (step self d) = Return v) ->
  outcome (step self c) = Raised e ->
  dispatch self (pre ++ c :: post) locals k
  = (traces self pre ++ trace (step self c), Raised e).
Proof.
  revert locals. induction pre as [|d pre IH]; intros locals Hok Hx.
  - change ([] ++ c :: post) with (c :: post). rewrite dispatch_cons.
    destruct (step self c) as [t o]. simpl in Hx. subst o. reflexivity.
  - change ((d :: pre) ++ c :: post) with (d :: (pre ++ c :: post)).
    rewrite dispatch_cons. destruct (Hok d (or_introl eq_refl)) as [v Hv].
    simpl. destruct (step self d) as [t o]. simpl in Hv. subst o. simpl.
    rewrite IH; [|intros d' Hd'; apply Hok; now right | exact Hx].
    now rewrite app_assoc.
Qed.

(** Either every [if] of [cs] returns, or there is a first one that does
    not. *)
Lemma first_stop (self : Info) (cs : list Category) :
  (forall c, In c cs -> exists v, outcome (step self c) = Return v) \/
  (exists before c post,
      cs = before ++ c :: post /\
      (forall d, In d before -> exists v, outcome (step self d) = Return v) /\
      (forall v, outcome (step self c) <> Return v)).
Proof.
  induction cs as [|c cs IH].
  - left. intros c [].
  - destruct (outcome (step self c)) as [v | e | x] eqn:E.
    + destruct IH as [Hall | [before [c' [post [Hcs [Hb Hc]]]]]].
      * left. intros d [<- | Hd]; [now exists v | now apply Hall].
      * right. exists (c :: before), c', post. split; [now rewrite Hcs|].
        split; [|exact Hc]. intros d [<- | Hd]; [now exists v | now apply Hb].
    + right. exists [], c, cs. split; [reflexivity|]. split; [intros d []|].
      intros v. rewrite E. discriminate.
    + right. exists [], c, cs. split; [reflexivity|]. split; [intros d []|].
      intros v. rewrite E. discriminate.
Qed.

Lemma step_of_requested (self : Info) (c : Category) :
  requested self c = true -> step self c = handler self c.
Proof. intro H. unfold step. now rewrite H. Qed.

Lemma step_stops_only_if_requested (self : Info) (c : Category) :
  (forall v, outcome (step self c) <> Return v) -> requested self c = true.
Proof.
  intro H. unfold step in H. destruct (requested self c); [reflexivity|].
  exfalso. now apply (H (default_value c)).
Qed.

(** X3: whatever the cluster answers, a run with a non-empty subset goes
    through the tests in their fixed order and calls the requested handlers
    one after the other. Either all of them return, and the events are
    those of all requested handlers in that order, followed by [exit_json];
    or the run stops at the first requested handler that does not return:
    the events are those of the requested handlers up to and including that
    one, nothing after it, and the run ends the way that handler ended. An
    empty subset gives no event at all. *)
Theorem calls_follow_dispatch_order (self : Info) :
  (gather_subset (module_params self) = [] /\
   trace (perform_module_operation self) = [])
  \/
  (gather_subset (module_params self) <> [] /\
   (forall c, requested self c = true ->
              exists v, outcome (handler self c) = Return v) /\
   trace (perform_module_operation self) = calls_of self dispatch_order /\
   exists report, outcome (perform_module_operation self) = Exited (ExitJson report))
  \/
  (gather_subset (module_params self) <> [] /\
   exists before c post,
     dispatch_order = before ++ c :: post /\
     requested self c = true /\
     (forall v, outcome (handler self c) <> Return v) /\
     (forall d, In d before -> requested self d = true ->
                exists v, outcome (handler self d) = Return v) /\
     trace (perform_module_operation self) = calls_of self (before ++ [c]) /\
     (forall x, outcome (handler self c) = Exited x ->
                outcome (perform_module_operation self) = Exited x) /\
     (forall e, outcome (handler self c) = Raised e ->
                outcome (perform_module_operation self) = Raised e)).
Proof.
  destruct (gather_subset (module_params self)) as [|s l] eqn:G.
  { left. split; [reflexivity|].
    rewrite perform_module_operation_table. unfold perform_by_table, subset_value.
    now rewrite G. }
  right.
  assert (gather_subset (module_params self) <> []) as Hne by (rewrite G; discriminate).
  rewrite perform_module_operation_table, (guard_passes self Hne).
  destruct (first_stop self dispatch_order)
    as [Hall | [before [c [post [Hord [Hb Hc]]]]]].
  - left. split; [discriminate|]. split; [|split].
    + intros c R. rewrite <- (step_of_requested self c R).
      apply Hall, all_categories.
    + rewrite calls_of_traces, (dispatch_ok self dispatch_order default_value _ Hall).
      unfold prepend, exit_json, trace. cbn [fst]. apply app_nil_r.
    + rewrite (dispatch_ok self dispatch_order default_value _ Hall).
      eexists. reflexivity.
  - right. split; [discriminate|]. exists before, c, post.
    pose proof (step_stops_only_if_requested self c Hc) as R.
    split; [exact Hord|]. split; [exact R|].
    rewrite <- (step_of_requested self c R).
    split; [exact Hc|]. split.
    { intros d Hd Rd. rewrite <- (step_of_requested self d Rd). now apply Hb. }
    assert (calls_of self (before ++ [c]) = traces self before ++ trace (step self c))
      as Hcalls.
    { rewrite calls_of_traces. clear. induction before as [|b before IH]; simpl.
      - now rewrite app_nil_r.
      - now rewrite IH, app_assoc. }
    rewrite Hord, Hcalls.
    destruct (outcome (step self c)) as [v | e | x] eqn:E.
    + exfalso. now apply (Hc v).
    + rewrite (dispatch_raise self before c post default_value _ e Hb E).
      split; [reflexivity|]. split; [discriminate|]. now intros e' [= ->].
    + rewrite (dispatch_stop self before c post default_value _ x Hb E).
      split; [reflexivity|]. split; [now intros x' [= ->] | discriminate].
Qed.

(** X4: a handler defined in this file never lets an exception out: it
    returns, or it ends in [fail_json] with a message that carries its
    operation and the host. *)
Theorem handler_returns_or_fails (self : Info) (c : Category) (op : string) :
  operation c = Some op ->
  (exists v, outcome (handler self c) = Return v) \/
  (exists msg, outcome (handler self c) = Exited (FailJson msg) /\
               contains (host self) msg = true /\ contains op msg = true).
Proof.
  intro Hop.
  destruct (proj2 (proj2 (handler_well_behaved self c)) op Hop) as [Hr Hx].
  destruct (outcome (handler self c)) as [v | e | x] eqn:E.
  - left. now exists v.
  - exfalso. now apply (Hr e).
  - right. destruct (Hx x eq_refl) as [msg [-> [Hh Ho]]]. now exists msg.
Qed.

(** X5: the choices of [gather_subset] and the tests of the method agree:
    every choice is tested by a category, every test is on a choice, no two
    categories test the same name, and no choice is listed twice. *)
Theorem choices_match_dispatch :
  (forall s, In s gather_subset_choices <-> exists c, gather_id c = s) /\
  (forall a b, gather_id a = gather_id b -> a = b) /\
  NoDup gather_subset_choices /\
  List.length gather_subset_choices = List.length dispatch_order.
Proof.
  split; [|split; [|split]].
  - intro s. split.
    + intro H. destruct (choice_gather_id s H) as [c ->]. now exists c.
    + intros [c <-]. apply gather_id_choice.
  - intros a b H.
    assert (NoDup (map gather_id dispatch_order)) as ND
        by (apply distinct_strings_NoDup; vm_compute; reflexivity).
    pose proof (all_categories a) as Ha. pose proof (all_categories b) as Hb.
    revert ND Ha Hb. generalize dispatch_order as cs.
    induction cs as [|c cs IH]; intros ND Ha Hb; [contradiction|].
    simpl in ND. inversion ND as [|? ? Hnot Hrest]; subst.
    destruct Ha as [-> | Ha], Hb as [-> | Hb].
    + reflexivity.
    + exfalso. apply Hnot. rewrite H. now apply in_map.
    + exfalso. apply Hnot. rewrite <- H. now apply in_map.
    + now apply IH.
  - apply distinct_strings_NoDup. vm_compute. reflexivity.
  - reflexivity.
Qed.

Lemma AnsibleModule_cases (args : TaskArgs) :
  (exists msg, AnsibleModule mutually_exclusive_args args = ([], Exited (FailJson msg))) \/
  (exists p l, AnsibleModule mutually_exclusive_args args = ([], Return p) /\
               arg_gather_subset args = Some l /\ gather_subset p = l /\
               valid_subset l).
Proof.
  unfold AnsibleModule.
  destruct (check_mutually_exclusive mutually_exclusive_args args) as [msg|].
  { left. now exists msg. }
  destruct (arg_gather_subset args) as [l|]; [|left; eexists; reflexivity].
  destruct (negb (mem_string _ scope_choices)); [left; eexists; reflexivity|].
  destruct (forallb (fun s => mem_string s gather_subset_choices) l) eqn:E; simpl.
  - right. eexists. exists l. repeat split. now apply valid_subset_check.
  - left. eexists. reflexivity.
Qed.

Lemma main_cases (cl : Client) (args : TaskArgs) :
  (trace (main cl args) = [] /\ exists msg, outcome (main cl args) = Exited (FailJson msg)) \/
  (exists self l, main cl args = perform_module_operation self /\ api self = cl /\
                  prereqs_error cl = None /\ arg_gather_subset args = Some l /\
                  gather_subset (module_params self) = l /\ valid_subset l).
Proof.
  unfold main, Info_init.
  destruct (AnsibleModule_cases args) as [[msg ->] | [p [l [-> [Ha [Hg Hv]]]]]].
  - left. split; [reflexivity | now exists msg].
  - change (@pair (list Event) (Outcome Params) [] (Return p)) with (ret p).
    rewrite bind_ret_l. destruct (prereqs_error cl) as [msg|] eqn:P.
    + left. split; [reflexivity | now exists msg].
    + right. exists {| module_params := p; api := cl |}, l.
      rewrite bind_ret_l. repeat split; assumption.
Qed.

(** X6: a whole run of [main] only fetches categories that the task lists
    in [gather_subset] (the argument validation having let through only
    the choices). *)
Theorem main_fetches_only_listed (cl : Client) (args : TaskArgs) (l : list string)
        (e : Event) :
  arg_gather_subset args = Some l ->
  In e (trace (main cl args)) ->
  In (gather_id (owner e)) l.
Proof.
  intros Hl He.
  destruct (main_cases cl args) as [[Ht _] | [self [l' [Hm [_ [_ [Ha [Hg Hv]]]]]]]].
  - rewrite Ht in He. contradiction.
  - assert (l' = l) as -> by congruence. clear Ha.
    rewrite Hm, perform_module_operation_table in He. unfold perform_by_table in He.
    destruct (negb (truthy (subset_value (module_params self)))).
    + simpl in He. contradiction.
    + rewrite bind_ret_l in He. apply dispatch_trace_owned in He; [|reflexivity].
      rewrite <- Hg. apply requested_valid; [now rewrite Hg | apply He].
Qed.

(** X7: when the prerequisite check reports missing packages, [main] ends
    in [fail_json] without a single remote call, whatever the task asks. *)
Theorem missing_prerequisites_stop_before_any_call (cl : Client) (args : TaskArgs)
        (msg : string) :
  prereqs_error cl = Some msg ->
  trace (main cl args) = [] /\
  exists m, outcome (main cl args) = Exited (FailJson m).
Proof.
  intro Hp.
  destruct (main_cases cl args) as [H | [self [l [_ [_ [Hn _]]]]]]; [exact H|].
  congruence.
Qed.

End WholeModule.

(* ================================================================== *)
(** * The handlers one by one *)
(* ================================================================== *)

Section HandlerDetails.

Local Open Scope list_scope.
#[local] Arguments String.append _ _ : simpl never.

(** The outcome of a one-call handler whose call returns. *)
Lemma try_call_value (self : Info) (m : ApiMethod) (kw : Kwargs)
      (k : Value -> M Value) (msg : Exn -> string) (details : Value) (r : Result Value) :
  respond (api self) m kw = Ok details ->
  k details = lift r ->
  outcome (try_except (x <- call self m kw ;; k x) (fun e => fail_json (msg e)))
  = match r with
    | Ok v => Return v
    | Raise e => Exited (FailJson (msg e))
    end.
Proof.
  intros Hr Hk. unfold call, remote. rewrite Hr. simpl. rewrite Hk.
  now destruct r.
Qed.

Ltac call_returns Hr :=
  match goal with
  | |- context [outcome (try_except (bind (call ?s ?m ?kw) ?k)
                                    (fun e => fail_json (@?msg e)))] =>
      rewrite (try_call_value s m kw k msg _ _ (Hr kw) eq_refl)
  end.

Ltac open_handler :=
  unfold handler;
  match goal with
  | |- context [outcome (?h _)] => unfold h
  | |- context [outcome (?h _ _)] => unfold h
  | |- context [outcome (?h _ _ _)] => unfold h
  end.

Ltac returns_lifted :=
  let x := fresh "x" in
  intro x; first [ exists (Ok x); reflexivity | eexists; reflexivity ].

Ltac one_call_trace :=
  match goal with
  | |- trace (try_except (bind (call ?s ?m ?kw) ?k) (fun e => fail_json (@?msg e))) = _ =>
      exact (proj1 (try_call_run s m kw k msg ltac:(returns_lifted)))
  end.

(** X8: every handler of this file other than [get_attributes_list] makes
    exactly one SDK call, with the zone, scope or no argument its body
    passes, whether the call succeeds or not; [get_network_pools] leaves
    the zone out only when [include_all_access_zones] is true. *)
Theorem handler_makes_one_call (self : Info) (c : Category) (m : ApiMethod) (kw : Kwargs) :
  sdk_call self c = Some (m, kw) ->
  trace (handler self c) = [Remote m kw].
Proof.
  intro H.
  destruct c; simpl in H; inversion H; subst m kw; clear H; unfold handler.
  all: try (match goal with |- trace (?h _) = _ => unfold h
                       | |- trace (?h _ _) = _ => unfold h end; one_call_trace).
  unfold get_network_pools.
  destruct (include_all_access_zones (module_params self)) as [[|]|]; simpl;
    one_call_trace.
Qed.

Ltac attributes_prefix n :=
  exists n; split; [lia|]; split; [reflexivity|]; split;
  [ let m := fresh "m" in let Hm := fresh "Hm" in
    intros m Hm; simpl in Hm;
    repeat (destruct Hm as [<- | Hm]; [eexists; eassumption|]); contradiction
  | split;
    [ let k := fresh "k" in let m := fresh "m" in let e := fresh "e" in
      let Hk := fresh "Hk" in let Hr := fresh "Hr" in
      intros k m e Hk Hr;
      destruct k as [|[|[|[|[|k]]]]]; simpl in Hk;
      try (destruct k; discriminate Hk);
      inversion Hk; subst m; first [lia | congruence]
    | ] ].

(** X9: [get_attributes_list] makes its calls in the order config,
    external IPs, identity, owner, version and stops at the first one that
    raises: the events are the first [n] calls, the calls before the last
    one all returned, no call is made after one that raised, and the
    handler returns only when all five calls returned. *)
Theorem attributes_calls_in_order (self : Info) :
  exists n, (1 <= n <= 5)%nat /\
    trace (get_attributes_list self) = firstn n attributes_calls /\
    (forall m, In m (firstn (n - 1) attribute_methods) ->
               exists v, respond (api self) m [] = Ok v) /\
    (forall k m e, nth_error attribute_methods k = Some m ->
                   respond (api self) m [] = Raise e -> (n <= S k)%nat) /\
    (forall v, outcome (get_attributes_list self) = Return v ->
               n = 5%nat /\
               forall m, In m attribute_methods ->
                         exists x, respond (api self) m [] = Ok x).
Proof.
  unfold get_attributes_list, call, remote, attributes_calls, attribute_methods.
  destruct (respond (api self) cluster_api_get_cluster_config []) as [v1|e1] eqn:E1;
    simpl; [|attributes_prefix 1%nat; intros v Hv; discriminate Hv].
  destruct (respond (api self) cluster_api_get_cluster_external_ips []) as [v2|e2] eqn:E2;
    simpl; [|attributes_prefix 2%nat; intros v Hv; discriminate Hv].
  destruct (join_value "," v2) as [v3|e3]; simpl;
    [|attributes_prefix 2%nat; intros v Hv; discriminate Hv].
  destruct (respond (api self) cluster_api_get_cluster_identity []) as [v4|e4] eqn:E4;
    simpl; [|attributes_prefix 3%nat; intros v Hv; discriminate Hv].
  destruct (respond (api self) cluster_api_get_cluster_owner []) as [v5|e5] eqn:E5;
    simpl; [|attributes_prefix 4%nat; intros v Hv; discriminate Hv].
  destruct (respond (api self) cluster_api_get_cluster_version []) as [v6|e6] eqn:E6;
    simpl; [|attributes_prefix 5%nat; intros v Hv; discriminate Hv].
  attributes_prefix 5%nat. intros v _. split; [reflexivity|].
  intros m Hm. simpl in Hm.
  repeat (destruct Hm as [<- | Hm]; [eexists; eassumption|]). contradiction.
Qed.

Lemma join_loop (names acc : list string) :
  for_each (map VStr names)
           (fun x acc => match x with
                         | VStr s => Ok (acc ++ [s])
                         | _ => Raise (TypeError "sequence item: expected str instance")
                         end) acc
  = Ok (acc ++ names).
Proof.
  revert acc. induction names as [|s names IH]; intro acc; simpl.
  - now rewrite app_nil_r.
  - rewrite IH, <- app_assoc. reflexivity.
Qed.

Lemma join_value_names (sep : string) (names : list string) :
  join_value sep (VList (map VStr names)) = Ok (VStr (join sep names)).
Proof. unfold join_value. simpl. now rewrite (join_loop names []). Qed.

(** X10: when its five calls return and the external addresses are text,
    [get_attributes_list] returns the five parts under their keys, the
    addresses joined by commas under [External IPs]. *)
Theorem attributes_assembled (self : Info) (config identity owner_info version : Value)
        (ips : list string) :
  respond (api self) cluster_api_get_cluster_config [] = Ok config ->
  respond (api self) cluster_api_get_cluster_external_ips [] = Ok (VList (map VStr ips)) ->
  respond (api self) cluster_api_get_cluster_identity [] = Ok identity ->
  respond (api self) cluster_api_get_cluster_owner [] = Ok owner_info ->
  respond (api self) cluster_api_get_cluster_version [] = Ok version ->
  outcome (get_attributes_list self)
  = Return (VDict [("Config", config); ("Contact_Info", owner_info);
                   ("External_IP", VDict [("External IPs", VStr (join "," ips))]);
                   ("Logon_msg", identity); ("Cluster_Version", version)]).
Proof.
  intros H1 H2 H3 H4 H5. unfold get_attributes_list, call, remote.
  rewrite H1. simpl. rewrite H2. simpl. rewrite join_value_names. simpl.
  rewrite H3. simpl. rewrite H4. simpl. rewrite H5. reflexivity.
Qed.

(** ** Handlers that project fields *)

Lemma project_dict (fields : list (string * string)) (d : list (string * Value)) :
  has_fields fields d -> project fields (VDict d) = Ok (pick fields d).
Proof.
  unfold has_fields. induction fields as [|[out key] fields IH]; intro H; simpl.
  - reflexivity.
  - inversion H as [|? ? Hk Hrest]; subst. simpl in Hk.
    destruct (lookup key d) as [x|]; [|contradiction]. simpl.
    rewrite (IH Hrest). reflexivity.
Qed.

Lemma project_missing (fields : list (string * string)) (d : list (string * Value))
      (ok : string * string) :
  In ok fields -> lookup (snd ok) d = None ->
  exists e, project fields (VDict d) = Raise e.
Proof.
  induction fields as [|[out key] fields IH]; intros Hin Hl; [contradiction|].
  simpl. destruct (lookup key d) as [x|] eqn:E; simpl.
  - destruct Hin as [<- | Hin]; [simpl in Hl; congruence|].
    destruct (IH Hin Hl) as [e ->]. now exists e.
  - eexists. reflexivity.
Qed.

Lemma for_each_collect_raise {A} (body : A -> Result Value) (xs : list A)
      (acc : list Value) :
  (exists x, In x xs /\ exists e, body x = Raise e) ->
  exists e, for_each xs (fun item acc => let* y := body item in Ok (acc ++ [y])) acc
            = Raise e.
Proof.
  revert acc. induction xs as [|x xs IH]; intros acc [y [Hin [e He]]]; [contradiction|].
  simpl. destruct (body x) as [v | e'] eqn:E; simpl.
  - destruct Hin as [-> | Hin]; [congruence|].
    apply IH. exists y. split; [exact Hin | now exists e].
  - now exists e'.
Qed.

Lemma collect_if_any_dicts (fields : list (string * string))
      (ds : list (list (string * Value))) :
  Forall (has_fields fields) ds ->
  collect_if_any (VList (map VDict ds)) fields
  = Ok (VList (map (fun d => VDict (pick fields d)) ds)).
Proof.
  intro H. unfold collect_if_any. destruct ds as [|d ds]; [reflexivity|].
  change (truthy (VList (map VDict (d :: ds)))) with true. cbv iota.
  rewrite (collect_list _ (map VDict (d :: ds))
                        (map (fun d => VDict (pick fields d)) (d :: ds))).
  - reflexivity.
  - clear -H. induction H as [|x xs Hx _ IH]; simpl; constructor; [|exact IH].
    now rewrite (project_dict fields x Hx).
Qed.

Lemma collect_if_any_missing (fields : list (string * string))
      (ds : list (list (string * Value))) (d : list (string * Value))
      (ok : string * string) :
  In d ds -> In ok fields -> lookup (snd ok) d = None ->
  exists e, collect_if_any (VList (map VDict ds)) fields = Raise e.
Proof.
  intros Hd Hok Hl. unfold collect_if_any.
  destruct ds as [|d0 ds]; [contradiction|].
  change (truthy (VList (map VDict (d0 :: ds)))) with true. cbv iota.
  unfold collect. change (iterate (VList (map VDict (d0 :: ds))))
    with (Ok (map VDict (d0 :: ds))). unfold rbind at 2.
  destruct (for_each_collect_raise
              (fun item => let* x := project fields item in Ok (VDict x))
              (map VDict (d0 :: ds)) []) as [e He].
  - exists (VDict d). split; [now apply in_map|].
    destruct (project_missing fields d ok Hok Hl) as [e ->]. now exists e.
  - rewrite He. now exists e.
Qed.

(** X11: a handler that guards its loop returns one dict per element of the
    listing, in the order received, holding exactly the fields its body
    names (renamed for [clients]); other fields of the element are dropped
    and an empty listing gives the empty list. *)
Theorem guarded_handler_projects (self : Info) (c : Category) (m : ApiMethod)
        (f : string) (details : Value) (ds : list (list (string * Value))) :
  guards_sublist c = true ->
  sublist_field c = Some (m, f) ->
  (forall kw, respond (api self) m kw = Ok details) ->
  getitem details f = Ok (VList (map VDict ds)) ->
  Forall (has_fields (projected_fields c)) ds ->
  outcome (handler self c)
  = Return (VList (map (fun d => VDict (pick (projected_fields c) d)) ds)).
Proof.
  intros Hc Hf Hr Hg Hds.
  destruct c; try discriminate Hc; simpl in Hf; inversion Hf; subst m f; clear Hf Hc;
    simpl projected_fields in *; open_handler.
  all: try (call_returns Hr; rewrite Hg; unfold rbind;
            now rewrite (collect_if_any_dicts _ ds Hds)).
  destruct (truthy (none_or_bool (include_all_access_zones (module_params self))));
    call_returns Hr; rewrite Hg; unfold rbind;
    now rewrite (collect_if_any_dicts _ ds Hds).
Qed.

(** X12: if one element of the listing lacks a field the body reads, the
    guarded handler returns no partial list: it ends in [fail_json] with a
    message that carries the host. *)
Theorem guarded_handler_fails_on_missing_field (self : Info) (c : Category)
        (m : ApiMethod) (f : string) (details : Value)
        (ds : list (list (string * Value))) (d : list (string * Value))
        (ok : string * string) :
  guards_sublist c = true ->
  sublist_field c = Some (m, f) ->
  (forall kw, respond (api self) m kw = Ok details) ->
  getitem details f = Ok (VList (map VDict ds)) ->
  In d ds -> In ok (projected_fields c) -> lookup (snd ok) d = None ->
  exists msg, outcome (handler self c) = Exited (FailJson msg) /\
              contains (host self) msg = true.
Proof.
  intros Hc Hf Hr Hg Hd Hok Hl.
  destruct (collect_if_any_missing (projected_fields c) ds d ok Hd Hok Hl) as [e He].
  destruct c; try discriminate Hc; simpl in Hf; inversion Hf; subst m f; clear Hf Hc;
    simpl projected_fields in *; open_handler.
  all: try (call_returns Hr; rewrite Hg; unfold rbind; rewrite He;
            eexists; split; [reflexivity | apply contains_mid]).
  destruct (truthy (none_or_bool (include_all_access_zones (module_params self))));
    (call_returns Hr; rewrite Hg; unfold rbind; rewrite He;
     eexists; split; [reflexivity | apply contains_mid]).
Qed.

(** ** Handlers that return what they receive *)

(** X13: the handlers for access zones, nodes, providers, users and groups
    return the response dict as it is. *)
Theorem whole_response_returned (self : Info) (c : Category) (m : ApiMethod)
        (details : Value) :
  returns_response c = Some m ->
  (forall kw, respond (api self) m kw = Ok details) ->
  outcome (handler self c) = Return details.
Proof.
  intros Hc Hr.
  destruct c; try discriminate Hc; simpl in Hc; inversion Hc; subst m; clear Hc;
    open_handler; unfold call, remote; rewrite Hr; reflexivity.
Qed.

(** X14: the handlers that pass a field through return the value of that
    field of the response, whatever it is. *)
Theorem field_returned (self : Info) (c : Category) (m : ApiMethod) (f : string)
        (details v : Value) :
  passes_through c = true ->
  sublist_field c = Some (m, f) ->
  (forall kw, respond (api self) m kw = Ok details) ->
  getitem details f = Ok v ->
  outcome (handler self c) = Return v.
Proof.
  intros Hc Hf Hr Hg.
  destruct c; try discriminate Hc; simpl in Hf; inversion Hf; subst m f; clear Hf Hc;
    open_handler; call_returns Hr; rewrite Hg; reflexivity.
Qed.

(** X15: when the response lacks the field the handler reads (or is not a
    dict at all), the handler ends in [fail_json] with a message that
    carries the host; this holds for every handler that reads a field
    first, that is all but the two report listings. *)
Theorem missing_field_fails (self : Info) (c : Category) (m : ApiMethod) (f : string)
        (details : Value) (e : Exn) :
  sublist_field c = Some (m, f) ->
  lists_reports c = false ->
  (forall kw, respond (api self) m kw = Ok details) ->
  getitem details f = Raise e ->
  exists msg, outcome (handler self c) = Exited (FailJson msg) /\
              contains (host self) msg = true.
Proof.
  intros Hf Hc Hr Hg.
  destruct c; try discriminate Hc; simpl in Hf; inversion Hf; subst m f; clear Hf Hc;
    open_handler.
  all: try (call_returns Hr; rewrite Hg; unfold rbind;
            eexists; split; [reflexivity | apply contains_mid]).
  destruct (truthy (none_or_bool (include_all_access_zones (module_params self))));
    (call_returns Hr; rewrite Hg; unfold rbind;
     eexists; split; [reflexivity | apply contains_mid]).
Qed.

(** X16: [get_zone_settings] returns the settings of the response with the
    requested zone written under [zone]; every other setting is
    unchanged. *)
Theorem zone_settings_carry_zone (self : Info) (zone details : Value)
        (d : list (string * Value)) :
  (forall kw, respond (api self) protocol_api_get_nfs_settings_zone kw = Ok details) ->
  getitem details "settings" = Ok (VDict d) ->
  exists settings,
    outcome (get_zone_settings self zone) = Return (VDict settings) /\
    lookup "zone" settings = Some zone /\
    (forall k, k <> "zone"%string -> lookup k settings = lookup k d).
Proof.
  intros Hr Hg. exists (dict_set "zone" zone d). split; [|split].
  - unfold get_zone_settings. call_returns Hr. rewrite Hg. reflexivity.
  - apply lookup_dict_set_same.
  - intros k Hk. now apply lookup_dict_set_other.
Qed.

(** X17: the three handlers that neither guard their loop nor their item
    assignment end in [fail_json] when the part they work on is [None]:
    the performance rules, the user-mapping rules and the zone settings. *)
Theorem unguarded_handler_fails_on_none (self : Info) (c : Category) (m : ApiMethod)
        (f : string) (details : Value) :
  unguarded c = true ->
  sublist_field c = Some (m, f) ->
  (forall kw, respond (api self) m kw = Ok details) ->
  getitem details f = Ok VNone ->
  exists msg, outcome (handler self c) = Exited (FailJson msg) /\
              contains (host self) msg = true.
Proof.
  intros Hc Hf Hr Hg.
  destruct c; try discriminate Hc; simpl in Hf; inversion Hf; subst m f; clear Hf Hc;
    open_handler; call_returns Hr; rewrite Hg; unfold rbind;
    (eexists; split; [reflexivity | apply contains_mid]).
Qed.

(** X18: a performance rule whose type is none of the four makes the whole
    listing fail: no list, not even of the rules before it, is returned. *)
Theorem unknown_rule_type_fails_listing (self : Info) (details rule : Value)
        (rules : list Value) (id schedule enabled ty limit : Value) :
  (forall kw, respond (api self) synciq_api_list_sync_rules kw = Ok details) ->
  getitem details "rules" = Ok (VList rules) ->
  In rule rules ->
  getitem rule "id" = Ok id -> getitem rule "schedule" = Ok schedule ->
  getitem rule "enabled" = Ok enabled -> getitem rule "type" = Ok ty ->
  getitem rule "limit" = Ok limit ->
  ~ (ty = VStr "bandwidth" \/ ty = VStr "cpu" \/ ty = VStr "file_count"
     \/ ty = VStr "worker") ->
  exists msg, outcome (get_synciq_performance_rules self) = Exited (FailJson msg) /\
              contains (host self) msg = true.
Proof.
  intros Hr Hg Hin Hi Hs He Ht Hl Hty.
  assert (performance_rule_dict rule = Raise (UnboundLocalError "unit")) as Hrule.
  { unfold performance_rule_dict. rewrite Hi, Hs, He, Ht, Hl. simpl.
    destruct (limit_unit_cases limit ty) as [[t ->] | [_ ->]]; [|reflexivity].
    exfalso. apply Hty. destruct t; simpl; auto. }
  destruct (for_each_collect_raise performance_rule_dict rules []) as [e Hraise].
  { exists rule. split; [exact Hin | eexists; exact Hrule]. }
  unfold get_synciq_performance_rules. call_returns Hr. rewrite Hg.
  unfold rbind at 1. unfold collect. simpl iterate. unfold rbind at 2.
  rewrite Hraise. simpl.
  eexists. split; [reflexivity | apply contains_mid].
Qed.

(** ** The report listings *)

Lemma for_each_ext {A S} (xs : list A) (f g : A -> S -> Result S) (s : S) :
  (forall x s', f x s' = g x s') -> for_each xs f s = for_each xs g s.
Proof.
  intro H. revert s. induction xs as [|x xs IH]; intro s; simpl; [reflexivity|].
  rewrite H. destruct (g x s); simpl; [apply IH | reflexivity].
Qed.

Lemma reports_loop_collect (details : Value) :
  reports_loop details
  = (let* total := getitem details "total" in
     let* indices := py_range total in
     let* acc := for_each indices (fun i acc =>
                   let* y := (let* reports := getitem details "reports" in
                              let* report := getindex reports i in
                              let* d := project report_fields report in
                              Ok (VDict d)) in
                   Ok (acc ++ [y])) [] in
     Ok (VList acc)).
Proof.
  unfold reports_loop. destruct (getitem details "total") as [total|]; [|reflexivity].
  simpl. destruct (py_range total) as [indices|]; [|reflexivity]. simpl.
  f_equal. apply for_each_ext. intros i acc.
  destruct (getitem details "reports") as [reports|]; [|reflexivity]. simpl.
  destruct (getindex reports i) as [report|]; [|reflexivity]. simpl.
  destruct (getitem report "id"); [|reflexivity]. simpl.
  destruct (getitem report "policy_name"); reflexivity.
Qed.

Lemma firstn_succ {A} (l : list A) (n : nat) :
  (n < List.length l)%nat ->
  exists x, nth_error l n = Some x /\ firstn (S n) l = firstn n l ++ [x].
Proof.
  revert n. induction l as [|a l IH]; intros n H; simpl in H; [lia|].
  destruct n as [|n].
  - exists a. split; reflexivity.
  - destruct (IH n) as [x [Hx Hf]]; [lia|]. exists x. split; [exact Hx|].
    change (firstn (S (S n)) (a :: l)) with (a :: firstn (S n) l). now rewrite Hf.
Qed.

Lemma getindex_dicts (ds : list (list (string * Value))) (i : nat)
      (d : list (string * Value)) :
  nth_error ds i = Some d ->
  getindex (VList (map VDict ds)) (Z.of_nat i) = Ok (VDict d).
Proof.
  intro H. unfold getindex.
  assert (i < List.length ds)%nat as Hlt by (apply nth_error_Some; congruence).
  assert (Z.ltb (Z.of_nat i) 0 = false) as E1 by (apply Z.ltb_ge; lia).
  assert (Z.leb (Z.of_nat (List.length ds)) (Z.of_nat i) = false) as E2
      by (apply Z.leb_gt; lia).
  rewrite length_map. cbv zeta. rewrite E1. cbv iota. rewrite E1, E2. simpl.
  rewrite Nat2Z.id, nth_error_map, H. reflexivity.
Qed.

Lemma report_rows (details : Value) (ds : list (list (string * Value))) (n : nat) :
  getitem details "reports" = Ok (VList (map VDict ds)) ->
  (n <= List.length ds)%nat ->
  Forall (has_fields report_fields) (firstn n ds) ->
  Forall2 (fun i y =>
             (let* reports := getitem details "reports" in
              let* report := getindex reports i in
              let* d := project report_fields report in
              Ok (VDict d)) = Ok y)
          (map Z.of_nat (seq 0 n))
          (map (fun d => VDict (pick report_fields d)) (firstn n ds)).
Proof.
  intros Hg. induction n as [|n IH]; intros Hn Hf.
  - simpl. constructor.
  - destruct (firstn_succ ds n) as [d [Hd Hs]]; [lia|].
    rewrite Hs in *. apply Forall_app in Hf as [Hf Hlast].
    rewrite seq_S, !map_app. apply Forall2_app; [apply IH; [lia | exact Hf]|].
    change (0 + n)%nat with n. constructor; [|constructor].
    rewrite Hg. unfold rbind at 1. rewrite (getindex_dicts ds n d Hd).
    unfold rbind at 1. inversion Hlast; subst. now rewrite project_dict.
Qed.

(** X19: a report listing returns the first [total] reports in the order
    received, each reduced to its [id] and its [policy_name] (under
    [name]), provided the listing holds at least [total] reports. *)
Theorem reports_listed_up_to_total (self : Info) (c : Category) (m : ApiMethod)
        (f : string) (details : Value) (ds : list (list (string * Value))) (n : nat) :
  lists_reports c = true ->
  sublist_field c = Some (m, f) ->
  (forall kw, respond (api self) m kw = Ok details) ->
  getitem details "total" = Ok (VInt (Z.of_nat n)) ->
  getitem details "reports" = Ok (VList (map VDict ds)) ->
  (n <= List.length ds)%nat ->
  Forall (has_fields report_fields) (firstn n ds) ->
  outcome (handler self c)
  = Return (VList (map (fun d => VDict (pick report_fields d)) (firstn n ds))).
Proof.
  intros Hc Hf Hr Ht Hg Hn Hds.
  assert (reports_loop details
          = Ok (VList (map (fun d => VDict (pick report_fields d)) (firstn n ds)))) as E.
  { rewrite reports_loop_collect, Ht. unfold rbind at 1. unfold py_range.
    unfold rbind at 1. rewrite Nat2Z.id.
    rewrite (for_each_collect _ _ _ [] (report_rows details ds n Hg Hn Hds)).
    reflexivity. }
  destruct c; try discriminate Hc; simpl in Hf; inversion Hf; subst m f; clear Hf Hc;
    open_handler; call_returns Hr; now rewrite E.
Qed.

(** X20: with a [total] of zero (or less) a report listing returns the
    empty list without looking at [reports] at all. *)
Theorem no_reports_when_total_is_zero (self : Info) (c : Category) (m : ApiMethod)
        (f : string) (details : Value) (z : Z) :
  lists_reports c = true ->
  sublist_field c = Some (m, f) ->
  (forall kw, respond (api self) m kw = Ok details) ->
  getitem details "total" = Ok (VInt z) ->
  (z <= 0)%Z ->
  outcome (handler self c) = Return (VList []).
Proof.
  intros Hc Hf Hr Ht Hz.
  assert (reports_loop details = Ok (VList [])) as E.
  { unfold reports_loop. rewrite Ht. simpl.
    replace (Z.to_nat z) with 0%nat by lia. reflexivity. }
  destruct c; try discriminate Hc; simpl in Hf; inversion Hf; subst m f; clear Hf Hc;
    open_handler; call_returns Hr; now rewrite E.
Qed.

(** X21: when [total] exceeds the number of reports in the response, the
    report listing ends in [fail_json] instead of returning the reports it
    has. *)
Theorem total_beyond_reports_fails (self : Info) (c : Category) (m : ApiMethod)
        (f : string) (details : Value) (reports : list Value) (z : Z) :
  lists_reports c = true ->
  sublist_field c = Some (m, f) ->
  (forall kw, respond (api self) m kw = Ok details) ->
  getitem details "total" = Ok (VInt z) ->
  getitem details "reports" = Ok (VList reports) ->
  (Z.of_nat (List.length reports) < z)%Z ->
  exists msg, outcome (handler self c) = Exited (FailJson msg) /\
              contains (host self) msg = true.
Proof.
  intros Hc Hf Hr Ht Hg Hz.
  assert (exists e, reports_loop details = Raise e) as [e E].
  { rewrite reports_loop_collect, Ht. unfold rbind at 1. unfold py_range.
    unfold rbind at 1.
    destruct (for_each_collect_raise
                (fun i => let* reports := getitem details "reports" in
                          let* report := getindex reports i in
                          let* d := project report_fields report in
                          Ok (VDict d))
                (map Z.of_nat (seq 0 (Z.to_nat z))) []) as [e He].
    - exists (Z.of_nat (List.length reports)). split.
      + apply in_map, in_seq. lia.
      + assert (Z.ltb (Z.of_nat (List.length reports)) 0 = false) as E1
            by (apply Z.ltb_ge; lia).
        rewrite Hg. unfold rbind at 1. unfold getindex. cbv zeta.
        rewrite E1. cbv iota. rewrite E1, Z.leb_refl. simpl. eexists. reflexivity.
    - rewrite He. now exists e. }
  destruct c; try discriminate Hc; simpl in Hf; inversion Hf; subst m f; clear Hf Hc;
    open_handler; call_returns Hr; rewrite E;
    (eexists; split; [reflexivity | apply contains_mid]).
Qed.

End HandlerDetails.

(* ================================================================== *)
(** * More concrete runs *)
(* ================================================================== *)

Section MoreConcreteRuns.

Local Open Scope list_scope.

Lemma empty_subset_is_refused_witness :
  gather_subset (module_params empty_request) = [] /\
  trace (perform_module_operation empty_request) = [] /\
  outcome (perform_module_operation empty_request)
  = Exited (FailJson "Please specify gather_subset").
Proof.
  exact (conj eq_refl (empty_subset_is_refused empty_request eq_refl)).
Defined.

Lemma module_always_exits_witness :
  (forall op args e, shared_library (api nodes_only) op args <> Raised e) /\
  exists x, outcome (perform_module_operation nodes_only) = Exited x.
Proof.
  assert (H : forall op args e, shared_library (api nodes_only) op args <> Raised e)
    by (intros op args e; discriminate).
  exact (conj H (module_always_exits nodes_only H)).
Defined.

Lemma handler_returns_or_fails_witness :
  operation Nodes = Some "Get Nodes List"%string /\
  ((exists v, outcome (handler unreachable Nodes) = Return v) \/
   (exists msg, outcome (handler unreachable Nodes) = Exited (FailJson msg) /\
                contains (host unreachable) msg = true /\
                contains "Get Nodes List" msg = true)).
Proof.
  exact (conj eq_refl (handler_returns_or_fails unreachable Nodes _ eq_refl)).
Defined.

Lemma main_fetches_only_listed_witness :
  arg_gather_subset users_task = Some ["users"%string] /\
  In (Remote auth_api_list_auth_users [("zone", VStr "System")])
     (trace (main (stub (fun _ _ => Ok (VDict []))) users_task)) /\
  In (gather_id (owner (Remote auth_api_list_auth_users [("zone", VStr "System")])))
     ["users"%string].
Proof.
  assert (H : In (Remote auth_api_list_auth_users [("zone", VStr "System")])
                 (trace (main (stub (fun _ _ => Ok (VDict []))) users_task)))
    by (vm_compute; left; reflexivity).
  exact (conj eq_refl (conj H
           (main_fetches_only_listed (stub (fun _ _ => Ok (VDict []))) users_task
              ["users"%string] _ eq_refl H))).
Defined.

Lemma missing_prerequisites_stop_before_any_call_witness :
  prereqs_error missing_packages = Some "Unable to import the PowerScale SDK"%string /\
  trace (main missing_packages users_task) = [] /\
  exists m, outcome (main missing_packages users_task) = Exited (FailJson m).
Proof.
  exact (conj eq_refl
           (missing_prerequisites_stop_before_any_call missing_packages users_task
              _ eq_refl)).
Defined.

Lemma handler_makes_one_call_witness :
  sdk_call all_zones NetworkPools = Some (network_api_get_network_pools, []) /\
  trace (handler all_zones NetworkPools) = [Remote network_api_get_network_pools []].
Proof.
  exact (conj eq_refl (handler_makes_one_call all_zones NetworkPools _ _ eq_refl)).
Defined.

Lemma attributes_assembled_witness :
  outcome (get_attributes_list attributes_listing)
  = Return (VDict [("Config", VDict []); ("Contact_Info", VDict []);
                   ("External_IP", VDict [("External IPs", VStr "10.0.0.1,10.0.0.2")]);
                   ("Logon_msg", VDict []); ("Cluster_Version", VDict [])]).
Proof.
  exact (attributes_assembled attributes_listing (VDict []) (VDict []) (VDict []) (VDict [])
           ["10.0.0.1"; "10.0.0.2"]%string eq_refl eq_refl eq_refl eq_refl eq_refl).
Defined.

Lemma guarded_handler_projects_witness :
  outcome (handler two_shares SmbShares)
  = Return (VList [VDict [("id", VStr "s1"); ("name", VStr "home")];
                   VDict [("id", VStr "s2"); ("name", VStr "tmp")]]).
Proof.
  assert (H : Forall (has_fields (projected_fields SmbShares))
                     [[("id", VStr "s1"); ("name", VStr "home"); ("path", VStr "/ifs/home")];
                      [("name", VStr "tmp"); ("id", VStr "s2")]]).
  { repeat constructor; discriminate. }
  exact (guarded_handler_projects two_shares SmbShares _ _ _
           [[("id", VStr "s1"); ("name", VStr "home"); ("path", VStr "/ifs/home")];
            [("name", VStr "tmp"); ("id", VStr "s2")]]
           eq_refl eq_refl (fun _ => eq_refl) eq_refl H).
Defined.

Lemma guarded_handler_fails_on_missing_field_witness :
  exists msg, outcome (handler broken_share SmbShares) = Exited (FailJson msg) /\
              contains (host broken_share) msg = true.
Proof.
  apply (guarded_handler_fails_on_missing_field broken_share SmbShares _ _ _
           [[("id", VStr "s1"); ("name", VStr "home")]; [("id", VStr "s2")]]
           [("id", VStr "s2")] ("name", "name")%string
           eq_refl eq_refl (fun _ => eq_refl) eq_refl).
  - right. left. reflexivity.
  - right. left. reflexivity.
  - reflexivity.
Defined.

Lemma whole_response_returned_witness :
  returns_response Nodes = Some cluster_api_get_cluster_nodes /\
  outcome (handler nodes_only Nodes) = Return (VDict [("nodes", VList [])]).
Proof.
  exact (conj eq_refl
           (whole_response_returned nodes_only Nodes _ _ eq_refl (fun _ => eq_refl))).
Defined.

Lemma field_returned_witness :
  passes_through NfsGlobalSettings = true /\
  outcome (handler zone_settings_listing NfsGlobalSettings)
  = Return (VDict [("nfsv4_domain", VStr "localhost")]).
Proof.
  exact (conj eq_refl
           (field_returned zone_settings_listing NfsGlobalSettings _ _ _ _
              eq_refl eq_refl (fun _ => eq_refl) eq_refl)).
Defined.

Lemma missing_field_fails_witness :
  getitem (VDict [("nodes", VList [])]) "shares" = Raise (KeyError "shares") /\
  exists msg, outcome (handler nodes_only SmbShares) = Exited (FailJson msg) /\
              contains (host nodes_only) msg = true.
Proof.
  exact (conj eq_refl
           (missing_field_fails nodes_only SmbShares _ _ _ (KeyError "shares")
              eq_refl eq_refl (fun _ => eq_refl) eq_refl)).
Defined.

Lemma zone_settings_carry_zone_witness :
  exists settings,
    outcome (get_zone_settings zone_settings_listing (VStr "System"))
    = Return (VDict settings) /\
    lookup "zone" settings = Some (VStr "System") /\
    (forall k, k <> "zone"%string ->
               lookup k settings = lookup k [("nfsv4_domain", VStr "localhost")]).
Proof.
  exact (zone_settings_carry_zone zone_settings_listing (VStr "System") _ _
           (fun _ => eq_refl) eq_refl).
Defined.

Lemma unguarded_handler_fails_on_none_witness :
  unguarded SynciqPerformanceRules = true /\
  exists msg, outcome (handler rules_none SynciqPerformanceRules) = Exited (FailJson msg) /\
              contains (host rules_none) msg = true.
Proof.
  exact (conj eq_refl
           (unguarded_handler_fails_on_none rules_none SynciqPerformanceRules _ _ _
              eq_refl eq_refl (fun _ => eq_refl) eq_refl)).
Defined.

Lemma unknown_rule_type_fails_listing_witness :
  In bad_rule [one_rule; bad_rule] /\
  exists msg, outcome (get_synciq_performance_rules bad_rules_listing)
              = Exited (FailJson msg) /\
              contains (host bad_rules_listing) msg = true.
Proof.
  assert (Hin : In bad_rule [one_rule; bad_rule]) by (right; left; reflexivity).
  assert (Hty : ~ (VStr "memory" = VStr "bandwidth" \/ VStr "memory" = VStr "cpu"
                   \/ VStr "memory" = VStr "file_count" \/ VStr "memory" = VStr "worker")).
  { intros [H | [H | [H | H]]]; discriminate H. }
  exact (conj Hin
           (unknown_rule_type_fails_listing bad_rules_listing _ bad_rule _ _ _ _ _ _
              (fun _ => eq_refl) eq_refl Hin eq_refl eq_refl eq_refl eq_refl eq_refl Hty)).
Defined.

Lemma reports_listed_up_to_total_witness :
  (1 <= List.length two_reports)%nat /\
  outcome (handler (reports_listing 1) SynciqReports)
  = Return (VList [VDict [("id", VStr "1-p"); ("name", VStr "p")]]).
Proof.
  assert (Hn : (1 <= List.length two_reports)%nat) by (simpl; lia).
  assert (Hf : Forall (has_fields report_fields) (firstn 1 two_reports)).
  { repeat constructor; discriminate. }
  exact (conj Hn
           (reports_listed_up_to_total (reports_listing 1) SynciqReports _ _ _
              two_reports 1 eq_refl eq_refl (fun _ => eq_refl) eq_refl eq_refl Hn Hf)).
Defined.

Lemma no_reports_when_total_is_zero_witness :
  (0 <= 0)%Z /\
  outcome (handler (reports_listing 0) SynciqTargetReports) = Return (VList []).
Proof.
  assert (Hz : (0 <= 0)%Z) by lia.
  exact (conj Hz
           (no_reports_when_total_is_zero (reports_listing 0) SynciqTargetReports _ _ _ 0
              eq_refl eq_refl (fun _ => eq_refl) eq_refl Hz)).
Defined.

Lemma total_beyond_reports_fails_witness :
  (Z.of_nat (List.length (map VDict two_reports)) < 5)%Z /\
  exists msg, outcome (handler (reports_listing 5) SynciqReports) = Exited (FailJson msg) /\
              contains (host (reports_listing 5)) msg = true.
Proof.
  assert (Hz : (Z.of_nat (List.length (map VDict two_reports)) < 5)%Z) by (simpl; lia).
  exact (conj Hz
           (total_beyond_reports_fails (reports_listing 5) SynciqReports _ _ _
              (map VDict two_reports) 5
              eq_refl eq_refl (fun _ => eq_refl) eq_refl eq_refl Hz)).
Defined.

End MoreConcreteRuns.
